(** * todo-backend: the task handlers, the response helper and the error
      middleware, embedded in Rocq.

    The development follows the TypeScript sources:
    - [JsString]        the two [String.prototype] methods the controller calls;
    - [Json], [Zod]     request bodies and [taskSchema];
    - [Express]         the part of [Response] the helper writes to;
    - [ResponseHelper]  src/utils/responseHelper.ts;
    - [ResponseHelper0] the second copy of the helper found in the repository;
    - [Prisma]          the [task] table behind [prisma.task];
    - [TaskController]  src/controllers/taskController.ts;
    - [App]             the centralized error-handling middleware.

    Logging through winston writes to log files only; it neither touches the
    response nor the table and is left out of the model. *)

From Stdlib Require Import String Ascii List ZArith Bool Lia.
Import ListNotations.
Local Open Scope string_scope.
Set Warnings "-register-all".

(* ------------------------------------------------------------------ *)
(** ** Strings *)

(** A string is a sequence of code units below 256 (Latin-1), which is what
    [Stdlib.Strings.String] offers.  On that range [trim] removes the code
    units TAB, LF, VT, FF, CR, SPACE and NBSP, and [toLowerCase] shifts
    A-Z and the accented capitals U+00C0..U+00DE (U+00D7 apart) by 32. *)
Module JsString.

Definition isWhiteSpace (c : ascii) : bool :=
  let n := nat_of_ascii c in
  (((9 <=? n) && (n <=? 13)) || (n =? 32) || (n =? 160))%nat.

Definition lowerChar (c : ascii) : ascii :=
  let n := nat_of_ascii c in
  if (((65 <=? n) && (n <=? 90))
      || ((192 <=? n) && (n <=? 222) && negb (n =? 215)))%nat
  then ascii_of_nat (n + 32) else c.

Fixpoint trimStart (s : string) : string :=
  match s with
  | EmptyString => EmptyString
  | String c r => if isWhiteSpace c then trimStart r else s
  end.

Fixpoint trimEnd (s : string) : string :=
  match s with
  | EmptyString => EmptyString
  | String c r =>
      match trimEnd r with
      | EmptyString => if isWhiteSpace c then EmptyString else String c EmptyString
      | r' => String c r'
      end
  end.

Definition trim (s : string) : string := trimEnd (trimStart s).

Fixpoint toLowerCase (s : string) : string :=
  match s with
  | EmptyString => EmptyString
  | String c r => String (lowerChar c) (toLowerCase r)
  end.

End JsString.

(* ------------------------------------------------------------------ *)
(** ** JSON values *)

(** What [express.json()] puts in [req.body] and what [res.json] is given.
    An object is its list of own properties; a property that is absent reads
    as [None] (JavaScript's [undefined]).  Numbers are the integers. *)
Module Json.

Inductive json : Type :=
| JNull
| JBool (b : bool)
| JNum (n : Z)
| JStr (s : string)
| JArr (items : list json)
| JObj (fields : list (string * json)).

Fixpoint get (k : string) (fields : list (string * json)) : option json :=
  match fields with
  | [] => None
  | (k', v) :: rest => if String.eqb k k' then Some v else get k rest
  end.

(** [o.k] for a value [o]: only objects have properties here. *)
Definition prop (k : string) (v : json) : option json :=
  match v with
  | JObj fields => get k fields
  | _ => None
  end.

End Json.
Import Json.

(* ------------------------------------------------------------------ *)
(** ** Errors that handlers and the middleware see *)

(** An [Error] instance, by the properties the code inspects:
    [instanceof CustomError] (which carries a [statusCode]), the presence of
    a [code] property, [meta.target] and [message]. *)
Record JsError : Type := mkJsError {
  custom : option Z;
  code : option string;
  meta_target : option (list string);
  message : string
}.

(** What a [try] block can throw: a [z.ZodError] with the messages of its
    [errors], or any other [Error]. *)
Inductive exn : Type :=
| ZodError (errors : list string)
| Thrown (e : JsError).

Definition plainError (msg : string) : JsError :=
  mkJsError None None None msg.

Definition prismaError (c : string) (target : option (list string)) (msg : string)
  : JsError :=
  mkJsError None (Some c) target msg.

Definition customError (msg : string) (statusCode : Z) : JsError :=
  mkJsError (Some statusCode) None None msg.

(* ------------------------------------------------------------------ *)
(** ** zod: [taskSchema] and [taskSchema.partial()] *)

Module Zod.

(** zod's [getParsedType] on a JSON value. *)
Definition parsedType (v : option json) : string :=
  match v with
  | None => "undefined"
  | Some JNull => "null"
  | Some (JBool _) => "boolean"
  | Some (JNum _) => "number"
  | Some (JStr _) => "string"
  | Some (JArr _) => "array"
  | Some (JObj _) => "object"
  end.

(** The default message of an [invalid_type] issue. *)
Definition invalidType (expected : string) (v : option json) : string :=
  match v with
  | None => "Required"
  | Some _ => "Expected " ++ expected ++ ", received " ++ parsedType v
  end.

(** A field parser returns the issue message or the parsed value. *)
Definition parser (A : Type) : Type := option json -> string + A.

(** [z.string()], and [z.string().nonempty(msg)] when [nonempty = Some msg]. *)
Definition z_string (nonempty : option string) : parser string :=
  fun v =>
    match v with
    | Some (JStr s) =>
        match nonempty with
        | Some msg => if (String.length s <? 1)%nat then inl msg else inr s
        | None => inr s
        end
    | _ => inl (invalidType "string" v)
    end.

(** [z.boolean()] *)
Definition z_boolean : parser bool :=
  fun v =>
    match v with
    | Some (JBool b) => inr b
    | _ => inl (invalidType "boolean" v)
    end.

(** [.optional()] *)
Definition optional {A : Type} (p : parser A) : parser (option A) :=
  fun v =>
    match v with
    | None => inr None
    | Some _ =>
        match p v with
        | inl msg => inl msg
        | inr a => inr (Some a)
        end
    end.

Definition issue {A : Type} (r : string + A) : list string :=
  match r with
  | inl msg => [msg]
  | inr _ => []
  end.

(** The parsed shape of [taskSchema]. *)
Record TaskInput : Type := mkTaskInput {
  title : string;
  color : string;
  completed : option bool
}.

(** The parsed shape of [taskSchema.partial()]. *)
Record PartialTaskInput : Type := mkPartialTaskInput {
  ptitle : option string;
  pcolor : option string;
  pcompleted : option bool
}.

Definition titleField : parser string := z_string (Some "Title is required").
Definition colorField : parser string := z_string None.
Definition completedField : parser (option bool) := optional z_boolean.

(** [taskSchema.parse(body)]: the fields are checked in the order of the
    schema, every issue is collected, unknown keys are dropped. *)
Definition taskSchema_parse (body : json) : exn + TaskInput :=
  match body with
  | JObj fields =>
      let t := titleField (get "title" fields) in
      let c := colorField (get "color" fields) in
      let d := completedField (get "completed" fields) in
      match t, c, d with
      | inr t', inr c', inr d' => inr (mkTaskInput t' c' d')
      | _, _, _ => inl (ZodError (issue t ++ issue c ++ issue d))
      end
  | _ => inl (ZodError [invalidType "object" (Some body)])
  end.

(** [taskSchema.partial().parse(body)]: every field becomes optional. *)
Definition taskSchema_partial_parse (body : json) : exn + PartialTaskInput :=
  match body with
  | JObj fields =>
      let t := optional titleField (get "title" fields) in
      let c := optional colorField (get "color" fields) in
      let d := optional completedField (get "completed" fields) in
      match t, c, d with
      | inr t', inr c', inr d' =>
          inr (mkPartialTaskInput t' c' (match d' with Some b => b | None => None end))
      | _, _, _ => inl (ZodError (issue t ++ issue c ++ issue d))
      end
  | _ => inl (ZodError [invalidType "object" (Some body)])
  end.

End Zod.

(* ------------------------------------------------------------------ *)
(** ** express: the response object *)

Module Express.

(** [statusCode] is what the transport will send as the HTTP status, [sent]
    the body handed to [res.json], if any. *)
Record Response : Type := mkResponse {
  statusCode : Z;
  sent : option json
}.

(** A response nobody has written to: express starts it at 200. *)
Definition fresh : Response := mkResponse 200 None.

(** [res.status(code)] *)
Definition status (c : Z) (res : Response) : Response :=
  mkResponse c (sent res).

(** [res.json(body)] *)
Definition json (b : Json.json) (res : Response) : Response :=
  mkResponse (statusCode res) (Some b).

End Express.

Definition orDefault {A : Type} (d : A) (o : option A) : A :=
  match o with
  | Some a => a
  | None => d
  end.

(* ------------------------------------------------------------------ *)
(** ** src/utils/responseHelper.ts *)

(** Parameters with a default value take [None] when the caller leaves them
    out. *)
Module ResponseHelper.

Definition sendSuccess (res : Express.Response) (data : json)
    (message : option string) (statusCode : option Z) : Express.Response :=
  let message := orDefault "Success" message in
  let statusCode := orDefault 200%Z statusCode in
  Express.json
    (JObj [("status", JStr "success");
           ("statusCode", JNum statusCode);
           ("message", JStr message);
           ("data", data)])
    (Express.status statusCode res).

Definition sendError (res : Express.Response) (errorMessage : string)
    (statusCode : option Z) : Express.Response :=
  let statusCode := orDefault 400%Z statusCode in
  Express.json
    (JObj [("statusCode", JNum statusCode);
           ("status", JStr "error");
           ("message", JStr errorMessage)])
    res.

End ResponseHelper.

(** The other copy of the helper in the repository (its path is not known;
    the controller and the application import the one above). *)
Module ResponseHelper0.

Definition sendSuccess (res : Express.Response) (data : json)
    (message : option string) (statusCode : option Z) : Express.Response :=
  let message := orDefault "Success" message in
  let statusCode := orDefault 200%Z statusCode in
  Express.json
    (JObj [("status", JStr "success");
           ("message", JStr message);
           ("data", data)])
    (Express.status statusCode res).

Definition sendError (res : Express.Response) (errorMessage : string)
    (statusCode : option Z) : Express.Response :=
  let statusCode := orDefault 400%Z statusCode in
  Express.json
    (JObj [("status", JStr "error");
           ("message", JStr errorMessage)])
    (Express.status statusCode res).

End ResponseHelper0.

(* ------------------------------------------------------------------ *)
(** ** Number(id) *)

(** The value of [Number(id)] as the [Int] column [id] takes it: an integer
    the column can hold, or anything else ([NaN] for "abc" and for a missing
    parameter, a fraction for "1.5", an infinity, an integer out of range). *)
Inductive JsNumber : Type :=
| JsInt (i : Z)
| NotInt.

(* ------------------------------------------------------------------ *)
(** ** prisma.task: the table *)

Module Prisma.

Record Task : Type := mkTask {
  id : Z;
  title : string;
  color : string;
  completed : bool
}.

(** Modelled from the spec: prisma/schema.prisma is not among the sources.
    The spec's data model gives the columns above, a system-generated unique
    [id], a unique [title] and [completed] defaulting to false. *)
Definition defaultCompleted : bool := false.

(** The rows in insertion order and the next auto-increment value. *)
Record Table : Type := mkTable {
  rows : list Task;
  nextId : Z
}.

Definition taskJson (t : Task) : json :=
  JObj [("id", JNum (id t));
        ("title", JStr (title t));
        ("color", JStr (color t));
        ("completed", JBool (completed t))].

(** [findMany()] *)
Definition findMany (tbl : Table) : list Task := rows tbl.

(** [findUnique({ where: { title } })]: the row whose title is this string. *)
Definition findUniqueByTitle (t : string) (tbl : Table) : option Task :=
  find (fun r => String.eqb (title r) t) (rows tbl).

(** [findUnique({ where: { id } })] *)
Definition findUniqueById (i : Z) (tbl : Table) : option Task :=
  find (fun r => Z.eqb (id r) i) (rows tbl).

Definition uniqueViolation : exn :=
  Thrown (prismaError "P2002" (Some ["title"])
            "Unique constraint failed on the fields: (`title`)").

Definition recordNotFound : exn :=
  Thrown (prismaError "P2025" None
            "An operation failed because it depends on one or more records that were required but not found.").

(** [create({ data: { title, color } })]: the unique constraint on [title]
    rejects a second row with the same title; [completed] takes its default. *)
Definition create (t c : string) (tbl : Table) : exn + (Task * Table) :=
  match findUniqueByTitle t tbl with
  | Some _ => inl uniqueViolation
  | None =>
      let row := mkTask (nextId tbl) t c defaultCompleted in
      inr (row, mkTable (rows tbl ++ [row]) (nextId tbl + 1))
  end.

(** The fields of [data] that are present replace those of the row. *)
Definition merge (old : Task) (data : Zod.PartialTaskInput) : Task :=
  mkTask (id old)
         (orDefault (title old) (Zod.ptitle data))
         (orDefault (color old) (Zod.pcolor data))
         (orDefault (completed old) (Zod.pcompleted data)).

Fixpoint replaceRow (row : Task) (l : list Task) : list Task :=
  match l with
  | [] => []
  | r :: rest =>
      if Z.eqb (id r) (id row) then row :: rest else r :: replaceRow row rest
  end.

(** Does another row than [i] already hold title [t]? *)
Definition titleTakenByOther (i : Z) (t : string) (tbl : Table) : bool :=
  existsb (fun r => negb (Z.eqb (id r) i) && String.eqb (title r) t) (rows tbl).

(** [update({ where: { id }, data })] *)
Definition update (i : Z) (data : Zod.PartialTaskInput) (tbl : Table)
  : exn + (Task * Table) :=
  match findUniqueById i tbl with
  | None => inl recordNotFound
  | Some old =>
      let row := merge old data in
      match Zod.ptitle data with
      | Some t =>
          if titleTakenByOther i t tbl then inl uniqueViolation
          else inr (row, mkTable (replaceRow row (rows tbl)) (nextId tbl))
      | None => inr (row, mkTable (replaceRow row (rows tbl)) (nextId tbl))
      end
  end.

(** [delete({ where: { id } })] *)
Definition delete (i : Z) (tbl : Table) : exn + (Task * Table) :=
  match findUniqueById i tbl with
  | None => inl recordNotFound
  | Some old =>
      inr (old, mkTable (filter (fun r => negb (Z.eqb (id r) i)) (rows tbl))
                        (nextId tbl))
  end.

(** What a call throws, before it reaches the table, when [where: { id }] is
    given a number that is no [Int]: an error without a [code]. *)
Definition invalidArgument : exn :=
  Thrown (plainError "Argument `id`: Invalid value provided. Expected Int.").

(** A call with [where: { id: Number(id) }]. *)
Definition whereId {A : Type} (n : JsNumber) (f : Z -> Table -> exn + A)
  : Table -> exn + A :=
  fun tbl =>
    match n with
    | JsInt i => f i tbl
    | NotInt => inl invalidArgument
    end.

Definition findUniqueWhereId (n : JsNumber) : Table -> exn + option Task :=
  whereId n (fun i tbl => inr (findUniqueById i tbl)).

Definition updateWhereId (n : JsNumber) (data : Zod.PartialTaskInput)
  : Table -> exn + (Task * Table) :=
  whereId n (fun i => update i data).

Definition deleteWhereId (n : JsNumber) : Table -> exn + (Task * Table) :=
  whereId n delete.

End Prisma.

(* ------------------------------------------------------------------ *)
(** ** Handlers as state transformers that may throw *)

(** What one request can change: the table, the response object and the
    number of times [next] was called. *)
Record World : Type := mkWorld {
  table : Prisma.Table;
  res : Express.Response;
  nextCalls : nat
}.

(** A computation ends with a value or a thrown error; writes made before a
    throw stay. *)
Definition M (A : Type) : Type := World -> (exn + A) * World.

Definition ret {A : Type} (a : A) : M A := fun w => (inr a, w).

Definition bind {A B : Type} (m : M A) (k : A -> M B) : M B :=
  fun w =>
    match m w with
    | (inl e, w') => (inl e, w')
    | (inr a, w') => k a w'
    end.

Definition throw {A : Type} (e : exn) : M A := fun w => (inl e, w).

(** [try { m } catch (error) { h error }] *)
Definition tryCatch {A : Type} (m : M A) (h : exn -> M A) : M A :=
  fun w =>
    match m w with
    | (inl e, w') => h e w'
    | (inr a, w') => (inr a, w')
    end.

Declare Scope handler_scope.
Delimit Scope handler_scope with handler.
Notation "x <- m ;; k" := (bind m (fun x => k))
  (at level 61, m at next level, right associativity) : handler_scope.
Notation "m ;; k" := (bind m (fun _ => k))
  (at level 61, right associativity) : handler_scope.

(** A call that returns or throws without touching the world. *)
Definition ofResult {A : Type} (r : exn + A) : M A :=
  fun w => (r, w).

(** A read of the table. *)
Definition query {A : Type} (f : Prisma.Table -> A) : M A :=
  fun w => (inr (f (table w)), w).

(** A read of the table that may throw. *)
Definition attempt {A : Type} (f : Prisma.Table -> exn + A) : M A :=
  fun w => (f (table w), w).

(** A write to the table: on an error the table is as before. *)
Definition mutate {A : Type} (f : Prisma.Table -> exn + (A * Prisma.Table)) : M A :=
  fun w =>
    match f (table w) with
    | inl e => (inl e, w)
    | inr (a, tbl) => (inr a, mkWorld tbl (res w) (nextCalls w))
    end.

(** A helper writing to [res]. *)
Definition respond (f : Express.Response -> Express.Response) : M unit :=
  fun w => (inr tt, mkWorld (table w) (f (res w)) (nextCalls w)).

(** [next(...)] with the [undefined] the helpers return. *)
Definition next : M unit :=
  fun w => (inr tt, mkWorld (table w) (res w) (S (nextCalls w))).

Definition sendSuccess (data : json) (message : option string)
    (statusCode : option Z) : M unit :=
  respond (fun r => ResponseHelper.sendSuccess r data message statusCode).

Definition sendError (errorMessage : string) (statusCode : option Z) : M unit :=
  respond (fun r => ResponseHelper.sendError r errorMessage statusCode).

(** The world a handler starts in. *)
Definition start (tbl : Prisma.Table) : World := mkWorld tbl Express.fresh 0.

(* ------------------------------------------------------------------ *)
(** ** src/controllers/taskController.ts *)

(** [params_id] is [Number(req.params.id)], the only way the handlers use the
    route parameter; [body] is the parsed JSON body. *)
Record Request : Type := mkRequest {
  params_id : JsNumber;
  body : json
}.

Module TaskController.

Local Open Scope handler_scope.

Definition normalize (title : string) : string :=
  JsString.toLowerCase (JsString.trim title).

Definition duplicateTitle : string :=
  "A task with this title already exists. Please use a unique title".

Definition getTasks (req : Request) : M unit :=
  tryCatch
    (tasks <- query Prisma.findMany ;;
     sendSuccess (JArr (map Prisma.taskJson tasks))
                 (Some "Tasks retrieved successfully") None)
    (fun error =>
       sendError "Failed to fetch tasks" (Some 500%Z) ;; next).

Definition createTask_try (req : Request) : M unit :=
  input <- ofResult (Zod.taskSchema_parse (body req)) ;;
  let title := Zod.title input in
  let color := Zod.color input in
  let normalizedTitle := normalize title in
  existingTask <- query (Prisma.findUniqueByTitle normalizedTitle) ;;
  match existingTask with
  | Some _ => sendError duplicateTitle (Some 400%Z)
  | None =>
      newTask <- mutate (Prisma.create normalizedTitle color) ;;
      sendSuccess (Prisma.taskJson newTask) (Some "Task created successfully")
                  (Some 201%Z)
  end.

Definition createTask_catch (error : exn) : M unit :=
  match error with
  | ZodError errors =>
      match errors with
      | first :: _ => sendError first (Some 400%Z) ;; next
      | [] => throw (Thrown (plainError
                "Cannot read properties of undefined (reading 'message')"))
      end
  | Thrown e =>
      match code e with
      | Some c =>
          if String.eqb c "P2002"
          then sendError
                 "A task with this title already exists. Please use a unique title."
                 (Some 400%Z) ;; next
          else sendError "Failed to create task" (Some 500%Z) ;; next
      | None => sendError "Failed to create task" (Some 500%Z) ;; next
      end
  end.

Definition createTask (req : Request) : M unit :=
  tryCatch (createTask_try req) createTask_catch.

Definition updateTask_try (req : Request) : M unit :=
  let id := params_id req in
  existingTask <- attempt (Prisma.findUniqueWhereId id) ;;
  match existingTask with
  | None => sendError "Task not found" (Some 404%Z)
  | Some _ =>
      validatedData <- ofResult (Zod.taskSchema_partial_parse (body req)) ;;
      updatedTask <- mutate (Prisma.updateWhereId id validatedData) ;;
      sendSuccess (Prisma.taskJson updatedTask) (Some "Task updated successfully")
                  None
  end.

Definition updateTask_catch (error : exn) : M unit :=
  match error with
  | ZodError errors =>
      match errors with
      | first :: _ => sendError first (Some 400%Z)
      | [] => throw (Thrown (plainError
                "Cannot read properties of undefined (reading 'message')"))
      end
  | Thrown _ => sendError "Failed to update task" (Some 500%Z) ;; next
  end.

Definition updateTask (req : Request) : M unit :=
  tryCatch (updateTask_try req) updateTask_catch.

Definition deleteTask_try (req : Request) : M unit :=
  let id := params_id req in
  existingTask <- attempt (Prisma.findUniqueWhereId id) ;;
  match existingTask with
  | None => sendError "Task not found" (Some 404%Z)
  | Some _ =>
      _ <- mutate (Prisma.deleteWhereId id) ;;
      sendSuccess JNull (Some "Task deleted successfully") None
  end.

Definition deleteTask_catch (error : exn) : M unit :=
  sendError "Failed to delete task" (Some 500%Z) ;; next.

Definition deleteTask (req : Request) : M unit :=
  tryCatch (deleteTask_try req) deleteTask_catch.

End TaskController.

(* ------------------------------------------------------------------ *)
(** ** The application: root route, 404 route, error-handling middleware *)

Module App.

Definition rootRoute (res : Express.Response) : Express.Response :=
  ResponseHelper.sendSuccess res JNull (Some "Welcome to the Task Manager API") None.

Definition routeNotFound (res : Express.Response) : Express.Response :=
  ResponseHelper.sendError res "Route not found" (Some 404%Z).

(** [process.env.NODE_ENV === 'production'] *)
Definition isProduction (node_env : option string) : bool :=
  match node_env with
  | Some v => String.eqb v "production"
  | None => false
  end.

(** [a || b] on strings: the empty string is falsy. *)
Definition orElse (a b : string) : string :=
  match a with
  | EmptyString => b
  | _ => a
  end.

(** [err.meta?.target?.[0] || 'field'] *)
Definition targetOf (err : JsError) : string :=
  match meta_target err with
  | Some (first :: _) => orElse first "field"
  | _ => "field"
  end.

Definition genericFailure : string :=
  "Something went wrong. Please try again later.".

(** The centralized error-handling middleware, with [process.env.NODE_ENV]
    as [node_env]. *)
Definition errorHandler (node_env : option string) (err : JsError)
    (res : Express.Response) : Express.Response :=
  match custom err with
  | Some statusCode =>
      ResponseHelper.sendError res (message err) (Some statusCode)
  | None =>
      match code err with
      | Some c =>
          if String.eqb c "P2002" then
            ResponseHelper.sendError res
              ("A task with this " ++ targetOf err
                 ++ " already exists. Please use a unique value.")
              (Some 400%Z)
          else if String.eqb c "P2025" then
            ResponseHelper.sendError res "Resource not found" (Some 404%Z)
          else
            ResponseHelper.sendError res "Database operation failed" (Some 500%Z)
      | None =>
          ResponseHelper.sendError res
            (if isProduction node_env then genericFailure
             else orElse (message err) "Unknown error occurred")
            (Some 500%Z)
      end
  end.

End App.

(* ------------------------------------------------------------------ *)
(** ** Vocabulary of the statements *)

(** The error envelope [{statusCode, status: "error", message}]. *)
Definition errorBody (statusCode : Z) (message : string) : json :=
  JObj [("statusCode", JNum statusCode);
        ("status", JStr "error");
        ("message", JStr message)].

(** The success envelope [{status: "success", statusCode, message, data}]. *)
Definition successBody (statusCode : Z) (message : string) (data : json) : json :=
  JObj [("status", JStr "success");
        ("statusCode", JNum statusCode);
        ("message", JStr message);
        ("data", data)].

(** Every stored title is its own normal form. *)
Definition titlesNormalized (tbl : Prisma.Table) : Prop :=
  Forall (fun r => TaskController.normalize (Prisma.title r) = Prisma.title r)
         (Prisma.rows tbl).

(** No two rows share a normalized title. *)
Definition normalizedTitlesDistinct (tbl : Prisma.Table) : Prop :=
  NoDup (map (fun r => TaskController.normalize (Prisma.title r)) (Prisma.rows tbl)).

(** In the order of the schema, the message of the first field of [body]
    that violates [taskSchema] (of the body itself when it is no object). *)
Definition firstViolation (body : json) : option string :=
  match body with
  | JObj fields =>
      match Zod.titleField (get "title" fields) with
      | inl msg => Some msg
      | inr _ =>
          match Zod.colorField (get "color" fields) with
          | inl msg => Some msg
          | inr _ =>
              match Zod.completedField (get "completed" fields) with
              | inl msg => Some msg
              | inr _ => None
              end
          end
      end
  | _ => Some (Zod.invalidType "object" (Some body))
  end.

(** The string is empty or begins with a code unit [trim] keeps. *)
Definition startsClean (s : string) : bool :=
  match s with
  | EmptyString => true
  | String c _ => negb (JsString.isWhiteSpace c)
  end.

(** The handler returned and the body it sent is the error envelope with this
    [statusCode] and message.  (The transport status is a separate matter:
    [sendError_status_untouched].) *)
Definition answersError (out : (exn + unit) * World) (statusCode : Z)
    (msg : string) : Prop :=
  fst out = inr tt
  /\ Express.sent (res (snd out)) = Some (errorBody statusCode msg).

(** The handler returned, the transport status is [statusCode] and the body
    sent is the success envelope around [data]. *)
Definition answersSuccess (out : (exn + unit) * World) (statusCode : Z)
    (msg : string) (data : json) : Prop :=
  fst out = inr tt
  /\ Express.statusCode (res (snd out)) = statusCode
  /\ Express.sent (res (snd out)) = Some (successBody statusCode msg data).

(* ------------------------------------------------------------------ *)
(** ** Sample tables and requests *)

Definition milk : Prisma.Task := Prisma.mkTask 1 "buy milk" "blue" false.
Definition dog : Prisma.Task := Prisma.mkTask 2 "walk dog" "red" false.
Definition twoTasks : Prisma.Table := Prisma.mkTable [milk; dog] 3.

Definition learnPrisma : Prisma.Table :=
  Prisma.mkTable [Prisma.mkTask 1 "learn prisma" "blue" false] 2.

(** POST bodies. *)
Definition shouting : Request :=
  mkRequest NotInt (JObj [("title", JStr "  LEARN PRISMA "); ("color", JStr "red")]).

Definition emptyTitle : Request :=
  mkRequest NotInt (JObj [("title", JStr ""); ("color", JStr "blue")]).

Definition alreadyDone : Request :=
  mkRequest NotInt (JObj [("title", JStr "Write Tests"); ("color", JStr "red");
                     ("completed", JBool true)]).

(** PUT bodies, with the id of the route. *)
Definition invalidRename : Request :=
  mkRequest (JsInt 7) (JObj [("title", JStr ""); ("completed", JStr "yes")]).

Definition unknownFields : Request :=
  mkRequest (JsInt 2) (JObj [("priority", JNum 3); ("done", JBool true)]).

Definition stealTitle : Request :=
  mkRequest (JsInt 2) (JObj [("title", JStr "buy milk")]).

(* ------------------------------------------------------------------ *)
(** ** prisma/seed.ts *)

Module Seed.

(** One element of [data]: [completed] may be left out. *)
Definition seedData : list Zod.TaskInput :=
  [Zod.mkTaskInput "Learn Prisma" "blue" (Some false);
   Zod.mkTaskInput "Build Todo App" "green" (Some true);
   Zod.mkTaskInput "Write Tests" "red" (Some false)].

(** The rows of [data] are inserted one after the other; the first title
    that is already there makes the whole statement fail. *)
Fixpoint insertAll (data : list Zod.TaskInput) (tbl : Prisma.Table)
  : exn + Prisma.Table :=
  match data with
  | [] => inr tbl
  | d :: rest =>
      match Prisma.findUniqueByTitle (Zod.title d) tbl with
      | Some _ => inl Prisma.uniqueViolation
      | None =>
          let row := Prisma.mkTask (Prisma.nextId tbl) (Zod.title d) (Zod.color d)
                       (orDefault Prisma.defaultCompleted (Zod.completed d)) in
          insertAll rest
            (Prisma.mkTable (Prisma.rows tbl ++ [row]) (Prisma.nextId tbl + 1))
      end
  end.

(** [createMany({ data })]: the number of rows created and the new table. *)
Definition createMany (data : list Zod.TaskInput) (tbl : Prisma.Table)
  : exn + (nat * Prisma.Table) :=
  match insertAll data tbl with
  | inl e => inl e
  | inr tbl' => inr (List.length data, tbl')
  end.

(** [seed()]: the error of a failed [createMany] is caught and printed. *)
Definition seed (tbl : Prisma.Table) : Prisma.Table :=
  match createMany seedData tbl with
  | inl _ => tbl
  | inr (_, tbl') => tbl'
  end.

End Seed.

(* ------------------------------------------------------------------ *)
(** ** More vocabulary *)

(** The string is empty or ends with a code unit [trim] keeps. *)
Fixpoint endsClean (s : string) : bool :=
  match s with
  | EmptyString => true
  | String c EmptyString => negb (JsString.isWhiteSpace c)
  | String _ r => endsClean r
  end.

(** Every code unit of the string is white space. *)
Fixpoint blank (s : string) : bool :=
  match s with
  | EmptyString => true
  | String c r => JsString.isWhiteSpace c && blank r
  end.

(** The ids are pairwise distinct and below the next auto-increment value. *)
Definition idsFresh (tbl : Prisma.Table) : Prop :=
  NoDup (map Prisma.id (Prisma.rows tbl))
  /\ Forall (fun i => (i < Prisma.nextId tbl)%Z) (map Prisma.id (Prisma.rows tbl)).

(** The stored titles are pairwise distinct strings. *)
Definition titlesDistinct (tbl : Prisma.Table) : Prop :=
  NoDup (map Prisma.title (Prisma.rows tbl)).

(** What [.partial()] makes of the optional [completed]. *)
Definition flattenCompleted (d : option (option bool)) : option bool :=
  match d with
  | Some b => b
  | None => None
  end.

(** A body the helpers can have sent: [status] is "success" or "error",
    [message] is a string and [statusCode] one of the codes the application
    uses. *)
Definition isEnvelope (b : json) : Prop :=
  (prop "status" b = Some (JStr "success") \/ prop "status" b = Some (JStr "error"))
  /\ exists c msg,
       prop "statusCode" b = Some (JNum c)
       /\ prop "message" b = Some (JStr msg)
       /\ In c [200; 201; 400; 404; 500]%Z.

(** The handler returned without throwing and an envelope was sent. *)
Definition answered (out : (exn + unit) * World) : Prop :=
  fst out = inr tt
  /\ exists b, Express.sent (res (snd out)) = Some b /\ isEnvelope b.

(** The titles [seed] inserts. *)
Definition seedTitles : list string := map Zod.title Seed.seedData.

(** The rows [seed] makes when the next auto-increment value is [n]. *)
Definition seedRows (n : Z) : list Prisma.Task :=
  [Prisma.mkTask n "Learn Prisma" "blue" false;
   Prisma.mkTask (n + 1) "Build Todo App" "green" true;
   Prisma.mkTask (n + 1 + 1) "Write Tests" "red" false].

(** [s.includes(sub)] *)
Fixpoint includes (sub s : string) : bool :=
  if String.prefix sub s then true
  else match s with
       | EmptyString => false
       | String _ r => includes sub r
       end.

(** The columns of the table. *)
Definition columns : list string := ["id"; "title"; "color"; "completed"].

(** More requests. *)
Definition blankTitle : Request :=
  mkRequest NotInt (JObj [("title", JStr "   "); ("color", JStr "grey")]).

Definition repaintDog : Request :=
  mkRequest (JsInt 2) (JObj [("color", JStr "black"); ("completed", JBool true)]).

Definition badCompleted : Request :=
  mkRequest (JsInt 2) (JObj [("completed", JStr "yes")]).

Definition deleteDog : Request := mkRequest (JsInt 2) JNull.

Definition learnPrismaPost : Request :=
  mkRequest NotInt (JObj [("title", JStr "Learn Prisma"); ("color", JStr "blue")]).

Definition emptyTable : Prisma.Table := Prisma.mkTable [] 1.

(** PUT or DELETE /tasks/abc: [Number("abc")] is [NaN]. *)
Definition notANumber : Request :=
  mkRequest NotInt (JObj [("color", JStr "red")]).

Definition dogOnly : Prisma.Table := Prisma.mkTable [dog] 3.

Definition padTitle : Request :=
  mkRequest (JsInt 2) (JObj [("title", JStr "  Buy Milk")]).

Definition buyMilkPost : Request :=
  mkRequest NotInt (JObj [("title", JStr "Buy Milk"); ("color", JStr "white")]).

(* ------------------------------------------------------------------ *)
(** ** Title normalization *)

Section Normalization.

Import JsString.

Lemma lowerChar_white (c : ascii) : isWhiteSpace (lowerChar c) = isWhiteSpace c.
Proof.
  destruct c as [b0 b1 b2 b3 b4 b5 b6 b7].
  destruct b0, b1, b2, b3, b4, b5, b6, b7; reflexivity.
Qed.

Lemma lowerChar_idem (c : ascii) : lowerChar (lowerChar c) = lowerChar c.
Proof.
  destruct c as [b0 b1 b2 b3 b4 b5 b6 b7].
  destruct b0, b1, b2, b3, b4, b5, b6, b7; reflexivity.
Qed.

Lemma toLowerCase_idem (s : string) : toLowerCase (toLowerCase s) = toLowerCase s.
Proof.
  induction s as [|c r IH]; simpl; [reflexivity|].
  now rewrite lowerChar_idem, IH.
Qed.

Lemma trimStart_lower (s : string) :
  trimStart (toLowerCase s) = toLowerCase (trimStart s).
Proof.
  induction s as [|c r IH]; simpl; [reflexivity|].
  rewrite lowerChar_white. destruct (isWhiteSpace c); [exact IH | reflexivity].
Qed.

Lemma trimEnd_lower (s : string) :
  trimEnd (toLowerCase s) = toLowerCase (trimEnd s).
Proof.
  induction s as [|c r IH]; simpl; [reflexivity|].
  rewrite IH, lowerChar_white.
  destruct (trimEnd r); simpl; [destruct (isWhiteSpace c)|]; reflexivity.
Qed.

Lemma trim_lower (s : string) : trim (toLowerCase s) = toLowerCase (trim s).
Proof. unfold trim. now rewrite trimStart_lower, trimEnd_lower. Qed.

Lemma trimStart_clean (s : string) : startsClean (trimStart s) = true.
Proof.
  induction s as [|c r IH]; simpl; [reflexivity|].
  destruct (isWhiteSpace c) eqn:E; [exact IH | simpl; now rewrite E].
Qed.

Lemma trimStart_fixed (s : string) : startsClean s = true -> trimStart s = s.
Proof.
  destruct s as [|c r]; simpl; [reflexivity|].
  now destruct (isWhiteSpace c).
Qed.

Lemma trimEnd_clean (s : string) :
  startsClean s = true -> startsClean (trimEnd s) = true.
Proof.
  destruct s as [|c r]; simpl; [reflexivity|].
  intros H. destruct (trimEnd r); simpl; [|exact H].
  destruct (isWhiteSpace c) eqn:E; [discriminate | simpl; now rewrite E].
Qed.

Lemma trimEnd_idem (s : string) : trimEnd (trimEnd s) = trimEnd s.
Proof.
  induction s as [|c r IH]; simpl; [reflexivity|].
  destruct (trimEnd r) as [|c' r'] eqn:E.
  - destruct (isWhiteSpace c) eqn:W; simpl; [reflexivity | now rewrite W].
  - change (trimEnd (String c (String c' r')))
      with (match trimEnd (String c' r') with
            | EmptyString =>
                if isWhiteSpace c then EmptyString else String c EmptyString
            | String a b => String c (String a b)
            end).
    now rewrite IH.
Qed.

Lemma trim_idem (s : string) : trim (trim s) = trim s.
Proof.
  unfold trim.
  rewrite (trimStart_fixed (trimEnd (trimStart s))).
  - apply trimEnd_idem.
  - apply trimEnd_clean, trimStart_clean.
Qed.

Lemma normalize_idem (s : string) :
  TaskController.normalize (TaskController.normalize s) = TaskController.normalize s.
Proof.
  unfold TaskController.normalize.
  now rewrite trim_lower, trim_idem, toLowerCase_idem.
Qed.

End Normalization.

Example normalize_learn_prisma :
  TaskController.normalize "  Learn Prisma " = "learn prisma"
  /\ TaskController.normalize "LEARN PRISMA" = "learn prisma".
Proof. split; reflexivity. Qed.

(* ------------------------------------------------------------------ *)
(** ** The response helper *)

Lemma sendSuccess_sets_both (res : Express.Response) (data : json)
    (message : option string) (statusCode : option Z) :
  let r := ResponseHelper.sendSuccess res data message statusCode in
  Express.statusCode r = orDefault 200%Z statusCode
  /\ Express.sent r
     = Some (successBody (orDefault 200%Z statusCode)
                         (orDefault "Success" message) data).
Proof. split; reflexivity. Qed.

Lemma sendError_body (res : Express.Response) (msg : string) (statusCode : option Z) :
  Express.sent (ResponseHelper.sendError res msg statusCode)
  = Some (errorBody (orDefault 400%Z statusCode) msg).
Proof. reflexivity. Qed.

Lemma sendError_status_untouched (res : Express.Response) (msg : string)
    (statusCode : option Z) :
  Express.statusCode (ResponseHelper.sendError res msg statusCode)
  = Express.statusCode res.
Proof. reflexivity. Qed.

(** The second copy sets the transport status in both functions and leaves
    [statusCode] out of both bodies. *)
Lemma helper0_status_only (res : Express.Response) (data : json) (msg : string)
    (c : Z) :
  let ok := ResponseHelper0.sendSuccess res data (Some msg) (Some c) in
  let ko := ResponseHelper0.sendError res msg (Some c) in
  Express.statusCode ok = c /\ Express.statusCode ko = c
  /\ (exists b, Express.sent ok = Some b /\ prop "statusCode" b = None)
  /\ (exists b, Express.sent ko = Some b /\ prop "statusCode" b = None).
Proof.
  repeat split; eexists; split; reflexivity.
Qed.

(** C1.  The claim wants every [sendError(message, statusCode)] to set the
    transport status to [statusCode] as well as to embed it in the body.
    [sendError] of src/utils/responseHelper.ts writes the body with
    [res.json] and never calls [res.status]: on a response express has just
    created, [sendError(res, "Task not found", 404)] sends the envelope with
    [statusCode: 404] under the transport status 200. *)
Theorem sendError_transport_status_not_set :
  let r := ResponseHelper.sendError Express.fresh "Task not found" (Some 404%Z) in
  Express.sent r = Some (errorBody 404 "Task not found")
  /\ Express.statusCode r = 200%Z
  /\ Express.statusCode r <> 404%Z.
Proof.
  cbv zeta. rewrite sendError_body, sendError_status_untouched.
  repeat split; discriminate.
Qed.

(* ------------------------------------------------------------------ *)
(** ** The title invariant *)

Lemma twoTasks_invariant :
  titlesNormalized twoTasks /\ normalizedTitlesDistinct twoTasks.
Proof.
  split.
  - repeat constructor.
  - unfold normalizedTitlesDistinct. simpl.
    constructor; [|constructor; [intros []|constructor]].
    intros [H|[]]. discriminate H.
Qed.

(** C2.  The claim wants [updateTask], like [createTask], to store only
    normalized titles and to keep normalized titles distinct.  [updateTask]
    hands the validated body to [prisma.task.update] as it is: in a table
    that satisfies the invariant, renaming task 2 to "  Buy Milk" answers 200
    and stores that title, which is not normalized and whose normal form is
    the title of task 1. *)
Theorem updateTask_stores_raw_title :
  let req := mkRequest (JsInt 2) (JObj [("title", JStr "  Buy Milk")]) in
  let w := snd (TaskController.updateTask req (start twoTasks)) in
  (titlesNormalized twoTasks /\ normalizedTitlesDistinct twoTasks)
  /\ Prisma.rows (table w) = [milk; Prisma.mkTask 2 "  Buy Milk" "red" false]
  /\ Express.statusCode (res w) = 200%Z
  /\ TaskController.normalize "  Buy Milk" = Prisma.title milk
  /\ ~ titlesNormalized (table w)
  /\ ~ normalizedTitlesDistinct (table w).
Proof.
  cbv zeta. split; [exact twoTasks_invariant|].
  assert (E : Prisma.rows (table (snd (TaskController.updateTask
                (mkRequest (JsInt 2) (JObj [("title", JStr "  Buy Milk")])) (start twoTasks))))
              = [milk; Prisma.mkTask 2 "  Buy Milk" "red" false]) by reflexivity.
  split; [exact E|]. split; [reflexivity|]. split; [reflexivity|].
  unfold titlesNormalized, normalizedTitlesDistinct. rewrite E. split.
  - intros H. inversion H as [|? ? _ H2]; subst.
    inversion H2 as [|? ? H3 _]; subst. discriminate H3.
  - intros H. inversion H as [|? ? H1 _]; subst.
    apply H1. left. reflexivity.
Qed.

(* ------------------------------------------------------------------ *)
(** ** taskSchema *)

(** A failed parse throws a [ZodError] whose first issue is the message of
    the first violated field. *)
Lemma taskSchema_parse_error (body : json) (e : exn) :
  Zod.taskSchema_parse body = inl e ->
  exists first rest,
    e = ZodError (first :: rest) /\ firstViolation body = Some first.
Proof.
  unfold Zod.taskSchema_parse, firstViolation.
  destruct body as [| b | n | s | items | fields];
    try (intros H; injection H as <-; eexists; eexists; split; reflexivity).
  destruct (Zod.titleField (get "title" fields)) as [mt|t];
    destruct (Zod.colorField (get "color" fields)) as [mc|c];
    destruct (Zod.completedField (get "completed" fields)) as [md|d];
    intros H; try discriminate H;
    injection H as <-; eexists; eexists; split; reflexivity.
Qed.

Lemma taskSchema_parse_ok (body : json) (input : Zod.TaskInput) :
  Zod.taskSchema_parse body = inr input -> firstViolation body = None.
Proof.
  unfold Zod.taskSchema_parse, firstViolation.
  destruct body as [| b | n | s | items | fields]; try discriminate.
  destruct (Zod.titleField (get "title" fields)) as [mt|t];
    destruct (Zod.colorField (get "color" fields)) as [mc|c];
    destruct (Zod.completedField (get "completed" fields)) as [md|d];
    intros H; try discriminate H; reflexivity.
Qed.

Lemma empty_title_violation (fields : list (string * json)) :
  get "title" fields = Some (JStr "") ->
  firstViolation (JObj fields) = Some "Title is required".
Proof. intros H. unfold firstViolation. rewrite H. reflexivity. Qed.

(* ------------------------------------------------------------------ *)
(** ** The table *)

Lemma find_title_some (t : string) (tbl : Prisma.Table) (r : Prisma.Task) :
  In r (Prisma.rows tbl) -> Prisma.title r = t ->
  exists r', Prisma.findUniqueByTitle t tbl = Some r'.
Proof.
  intros Hin Ht. unfold Prisma.findUniqueByTitle.
  destruct (find (fun r0 => String.eqb (Prisma.title r0) t) (Prisma.rows tbl))
    as [r'|] eqn:E; [now exists r'|].
  apply (find_none _ _ E) in Hin. simpl in Hin.
  rewrite Ht, String.eqb_refl in Hin. discriminate.
Qed.

Lemma find_title_none (t : string) (tbl : Prisma.Table) :
  (forall r, In r (Prisma.rows tbl) -> Prisma.title r <> t) ->
  Prisma.findUniqueByTitle t tbl = None.
Proof.
  intros H. unfold Prisma.findUniqueByTitle.
  destruct (find (fun r0 => String.eqb (Prisma.title r0) t) (Prisma.rows tbl))
    as [r'|] eqn:E; [|reflexivity].
  apply find_some in E. destruct E as [Hin Heq].
  apply String.eqb_eq in Heq. now apply H in Hin.
Qed.

Lemma find_title_none_inv (t : string) (tbl : Prisma.Table) (r : Prisma.Task) :
  Prisma.findUniqueByTitle t tbl = None ->
  In r (Prisma.rows tbl) -> Prisma.title r <> t.
Proof.
  intros E Hin Ht. apply (find_none _ _ E) in Hin. simpl in Hin.
  rewrite Ht, String.eqb_refl in Hin. discriminate.
Qed.

Lemma find_id_matches (i : Z) (tbl : Prisma.Table) (r : Prisma.Task) :
  Prisma.findUniqueById i tbl = Some r -> Prisma.id r = i.
Proof.
  intros E. apply find_some in E. destruct E as [_ E]. now apply Z.eqb_eq.
Qed.

Lemma replaceRow_same (r : Prisma.Task) (l : list Prisma.Task) :
  find (fun x => Z.eqb (Prisma.id x) (Prisma.id r)) l = Some r ->
  Prisma.replaceRow r l = l.
Proof.
  induction l as [|x l IH]; simpl; [reflexivity|].
  destruct (Z.eqb (Prisma.id x) (Prisma.id r)).
  - now intros [= ->].
  - intros H. now rewrite IH.
Qed.

Lemma merge_nothing (old : Prisma.Task) :
  Prisma.merge old (Zod.mkPartialTaskInput None None None) = old.
Proof. now destruct old. Qed.

(* ------------------------------------------------------------------ *)
(** ** createTask, branch by branch *)

Section CreateTask.

Variables (req : Request) (w : World).

Lemma createTask_invalid (first : string) (rest : list string) :
  Zod.taskSchema_parse (body req) = inl (ZodError (first :: rest)) ->
  TaskController.createTask req w
  = (inr tt,
     mkWorld (table w)
             (ResponseHelper.sendError (res w) first (Some 400%Z))
             (S (nextCalls w))).
Proof.
  intros H.
  unfold TaskController.createTask, TaskController.createTask_try,
    tryCatch, bind, ofResult.
  rewrite H. reflexivity.
Qed.

Lemma createTask_existing (input : Zod.TaskInput) (existing : Prisma.Task) :
  Zod.taskSchema_parse (body req) = inr input ->
  Prisma.findUniqueByTitle (TaskController.normalize (Zod.title input)) (table w)
  = Some existing ->
  TaskController.createTask req w
  = (inr tt,
     mkWorld (table w)
             (ResponseHelper.sendError (res w) TaskController.duplicateTitle
                                       (Some 400%Z))
             (nextCalls w)).
Proof.
  intros H E.
  unfold TaskController.createTask, TaskController.createTask_try,
    tryCatch, bind, ofResult, query.
  rewrite H. cbn [table]. rewrite E. reflexivity.
Qed.

Lemma createTask_new (input : Zod.TaskInput) :
  Zod.taskSchema_parse (body req) = inr input ->
  Prisma.findUniqueByTitle (TaskController.normalize (Zod.title input)) (table w)
  = None ->
  let row := Prisma.mkTask (Prisma.nextId (table w))
                           (TaskController.normalize (Zod.title input))
                           (Zod.color input) false in
  TaskController.createTask req w
  = (inr tt,
     mkWorld (Prisma.mkTable (Prisma.rows (table w) ++ [row])
                             (Prisma.nextId (table w) + 1))
             (ResponseHelper.sendSuccess (res w) (Prisma.taskJson row)
                (Some "Task created successfully") (Some 201%Z))
             (nextCalls w)).
Proof.
  intros H E.
  unfold TaskController.createTask, TaskController.createTask_try,
    tryCatch, bind, ofResult, query, mutate, Prisma.create.
  rewrite H. cbn [table]. rewrite E. cbn [table]. rewrite E. reflexivity.
Qed.

End CreateTask.

(** [createTask] keeps both halves of the title invariant. *)
Lemma createTask_keeps_invariant (req : Request) (w : World) :
  titlesNormalized (table w) -> normalizedTitlesDistinct (table w) ->
  let w' := snd (TaskController.createTask req w) in
  titlesNormalized (table w') /\ normalizedTitlesDistinct (table w').
Proof.
  intros HN HD. cbv zeta.
  destruct (Zod.taskSchema_parse (body req)) as [e|input] eqn:P.
  - destruct (taskSchema_parse_error _ _ P) as (first & rest & -> & _).
    rewrite (createTask_invalid req w first rest P). now split.
  - destruct (Prisma.findUniqueByTitle
                (TaskController.normalize (Zod.title input)) (table w))
      as [existing|] eqn:E.
    + rewrite (createTask_existing req w input existing P E). now split.
    + rewrite (createTask_new req w input P E). cbn [snd table].
      unfold titlesNormalized, normalizedTitlesDistinct in *. cbn [Prisma.rows].
      split.
      * apply Forall_app. split; [exact HN|].
        constructor; [|constructor]. cbn [Prisma.title]. apply normalize_idem.
      * rewrite map_app. apply NoDup_app; [exact HD| |].
        -- constructor; [intros []|constructor].
        -- intros a Ha [Hb|[]]. cbn [Prisma.title] in Hb.
           rewrite normalize_idem in Hb. subst a.
           apply in_map_iff in Ha. destruct Ha as (r & Hr & Hin).
           rewrite Forall_forall in HN. rewrite (HN r Hin) in Hr.
           exact (find_title_none_inv _ _ r E Hin Hr).
Qed.

(* ------------------------------------------------------------------ *)
(** ** Claims on createTask *)

(** C4.  The claim wants a create request whose normalized title is that of
    an existing task to fail with a 400 response.  The duplicate is found and
    nothing is stored, but the answer goes out through [sendError]: the body
    says [statusCode: 400] under the transport status 200.  And the look-up
    compares the normalized title with the titles as stored, which
    [updateTask] does not normalize: once task 2 has been renamed to
    "  Buy Milk" (answered 200), a create request for "Buy Milk", whose
    normal form is that of the stored title, is answered 201 and stored
    beside it. *)
Theorem createTask_duplicate_transport_status :
  let out := TaskController.createTask shouting (start learnPrisma) in
  let renamed := table (snd (TaskController.updateTask padTitle (start dogOnly))) in
  let out' := TaskController.createTask buyMilkPost (start renamed) in
  (answersError out 400 TaskController.duplicateTitle
   /\ table (snd out) = learnPrisma
   /\ Express.statusCode (res (snd out)) = 200%Z
   /\ Express.statusCode (res (snd out)) <> 400%Z)
  /\ (Prisma.rows renamed = [Prisma.mkTask 2 "  Buy Milk" "red" false]
      /\ TaskController.normalize "Buy Milk" = TaskController.normalize "  Buy Milk"
      /\ answersSuccess out' 201 "Task created successfully"
           (Prisma.taskJson (Prisma.mkTask 3 "buy milk" "white" false))
      /\ Prisma.rows (table (snd out'))
         = [Prisma.mkTask 2 "  Buy Milk" "red" false;
            Prisma.mkTask 3 "buy milk" "white" false]).
Proof.
  cbv zeta. split.
  - repeat split. discriminate.
  - repeat split.
Qed.

(** C5.  The claim wants a create request that fails validation to return
    400 with the first field's message and to store nothing.  For an empty
    title the message is "Title is required" and the table is as before, but
    the answer goes out through [sendError]: the body says [statusCode: 400]
    under the transport status 200. *)
Theorem createTask_validation_transport_status :
  let out := TaskController.createTask emptyTitle (start learnPrisma) in
  firstViolation (body emptyTitle) = Some "Title is required"
  /\ answersError out 400 "Title is required"
  /\ table (snd out) = learnPrisma
  /\ Express.statusCode (res (snd out)) = 200%Z
  /\ Express.statusCode (res (snd out)) <> 400%Z.
Proof.
  cbv zeta. repeat split. discriminate.
Qed.

(** C9.  [createTask] does not read [completed]: for a valid body whose
    normalized title is free, the stored row is made of the next id, the
    normalized title, the colour and the default [completed = false], and two
    valid bodies with the same title and colour have the same effect whatever
    their [completed]. *)
Theorem createTask_ignores_completed (req : Request) (w : World)
    (input : Zod.TaskInput)
    (Hvalid : Zod.taskSchema_parse (body req) = inr input)
    (Hfree : Prisma.findUniqueByTitle
               (TaskController.normalize (Zod.title input)) (table w) = None) :
  let out := TaskController.createTask req w in
  let row := Prisma.mkTask (Prisma.nextId (table w))
                           (TaskController.normalize (Zod.title input))
                           (Zod.color input) Prisma.defaultCompleted in
  Prisma.rows (table (snd out)) = (Prisma.rows (table w) ++ [row])%list
  /\ Prisma.completed row = false
  /\ answersSuccess out 201 "Task created successfully" (Prisma.taskJson row)
  /\ (forall req' input',
        Zod.taskSchema_parse (body req') = inr input' ->
        Zod.title input' = Zod.title input ->
        Zod.color input' = Zod.color input ->
        TaskController.createTask req' w = out).
Proof.
  cbv zeta. rewrite (createTask_new req w input Hvalid Hfree).
  repeat split.
  intros req' input' Hvalid' Ht Hc.
  rewrite <- Ht in Hfree.
  rewrite (createTask_new req' w input' Hvalid' Hfree).
  now rewrite Ht, Hc.
Qed.

Lemma createTask_ignores_completed_witness :
  Zod.taskSchema_parse (body alreadyDone)
  = inr (Zod.mkTaskInput "Write Tests" "red" (Some true))
  /\ Prisma.rows (table (snd (TaskController.createTask alreadyDone
                                (start learnPrisma))))
     = [Prisma.mkTask 1 "learn prisma" "blue" false;
        Prisma.mkTask 2 "write tests" "red" false].
Proof.
  split; [reflexivity|].
  exact (proj1 (createTask_ignores_completed alreadyDone (start learnPrisma)
                  (Zod.mkTaskInput "Write Tests" "red" (Some true))
                  eq_refl eq_refl)).
Defined.

(* ------------------------------------------------------------------ *)
(** ** Claims on updateTask and deleteTask *)

(** C3.  The claim wants every update or delete request whose id matches no
    task to be answered 404 "Task not found".  For an id no task has, here 7,
    both handlers send that message, before the (invalid) body is looked at,
    but through [sendError]: the body says [statusCode: 404] under the
    transport status 200.  And for an id such as "abc", which matches no task
    either, [Number(id)] is no integer, the look-up throws and the answers
    are "Failed to update task" and "Failed to delete task" with
    [statusCode: 500] in the body. *)
Theorem missing_id_transport_status :
  let up := TaskController.updateTask invalidRename (start twoTasks) in
  let del := TaskController.deleteTask invalidRename (start twoTasks) in
  let up' := TaskController.updateTask notANumber (start twoTasks) in
  let del' := TaskController.deleteTask notANumber (start twoTasks) in
  (Prisma.findUniqueById 7 twoTasks = None
   /\ (exists e, Zod.taskSchema_partial_parse (body invalidRename) = inl e))
  /\ (answersError up 404 "Task not found"
      /\ Express.statusCode (res (snd up)) = 200%Z
      /\ Express.statusCode (res (snd up)) <> 404%Z)
  /\ (answersError del 404 "Task not found"
      /\ Express.statusCode (res (snd del)) = 200%Z
      /\ Express.statusCode (res (snd del)) <> 404%Z)
  /\ (answersError up' 500 "Failed to update task"
      /\ ~ answersError up' 404 "Task not found")
  /\ (answersError del' 500 "Failed to delete task"
      /\ ~ answersError del' 404 "Task not found").
Proof.
  cbv zeta.
  split; [split; [reflexivity | eexists; reflexivity]|].
  split; [repeat split; discriminate|].
  split; [repeat split; discriminate|].
  split; (split; [repeat split | intros [_ H]; discriminate H]).
Qed.

Lemma whereId_found (n : JsNumber) (tbl : Prisma.Table) (old : Prisma.Task) :
  Prisma.findUniqueWhereId n tbl = inr (Some old) ->
  exists i, n = JsInt i /\ Prisma.findUniqueById i tbl = Some old.
Proof.
  destruct n as [i|]; [|discriminate].
  intros [= H]. now exists i.
Qed.

(** C7.  When the task exists and the partial validation of the body yields
    no field, [updateTask] answers 200 with the stored task and the table,
    hence every field of the task, is as before. *)
Theorem updateTask_without_fields (req : Request) (w : World) (old : Prisma.Task)
    (Hfound : Prisma.findUniqueWhereId (params_id req) (table w) = inr (Some old))
    (Hempty : Zod.taskSchema_partial_parse (body req)
              = inr (Zod.mkPartialTaskInput None None None)) :
  let out := TaskController.updateTask req w in
  answersSuccess out 200 "Task updated successfully" (Prisma.taskJson old)
  /\ table (snd out) = table w
  /\ Prisma.findUniqueWhereId (params_id req) (table (snd out)) = inr (Some old).
Proof.
  cbv zeta.
  assert (E : TaskController.updateTask req w
              = (inr tt,
                 mkWorld (table w)
                   (ResponseHelper.sendSuccess (res w) (Prisma.taskJson old)
                      (Some "Task updated successfully") None)
                   (nextCalls w))).
  { destruct (whereId_found _ _ _ Hfound) as (i & Hid & Hi).
    unfold TaskController.updateTask, TaskController.updateTask_try,
      tryCatch, bind, attempt, ofResult, mutate.
    rewrite Hfound, Hempty. cbn [table].
    unfold Prisma.updateWhereId, Prisma.whereId, Prisma.update.
    rewrite Hid, Hi. cbn [Zod.ptitle]. rewrite merge_nothing.
    rewrite replaceRow_same.
    - destruct (table w); reflexivity.
    - rewrite (find_id_matches _ _ _ Hi). exact Hi. }
  rewrite E. repeat split. exact Hfound.
Qed.

Lemma updateTask_without_fields_witness :
  Prisma.findUniqueWhereId (params_id unknownFields) (table (start twoTasks))
  = inr (Some dog)
  /\ Zod.taskSchema_partial_parse (body unknownFields)
     = inr (Zod.mkPartialTaskInput None None None)
  /\ answersSuccess (TaskController.updateTask unknownFields (start twoTasks))
                    200 "Task updated successfully" (Prisma.taskJson dog)
  /\ table (snd (TaskController.updateTask unknownFields (start twoTasks)))
     = twoTasks.
Proof.
  split; [reflexivity|]. split; [reflexivity|].
  pose proof (updateTask_without_fields unknownFields (start twoTasks) dog
                eq_refl eq_refl) as H.
  split; [exact (proj1 H) | exact (proj1 (proj2 H))].
Defined.

(** C10.  The claim wants an update onto the title of another task to get,
    instead of the duplicate-title message, a 500 response "Failed to update
    task".  Renaming task 2 to the title of task 1 makes the table report the
    unique-constraint violation; the catch block sends "Failed to update
    task" and calls [next], the table is as before and the duplicate-title
    message is not sent, but the answer goes out through [sendError]: the
    body says [statusCode: 500] under the transport status 200. *)
Theorem updateTask_collision_transport_status :
  let out := TaskController.updateTask stealTitle (start twoTasks) in
  Prisma.update 2 (Zod.mkPartialTaskInput (Some "buy milk") None None) twoTasks
  = inl Prisma.uniqueViolation
  /\ answersError out 500 "Failed to update task"
  /\ ~ answersError out 400 TaskController.duplicateTitle
  /\ table (snd out) = twoTasks
  /\ nextCalls (snd out) = 1%nat
  /\ Express.statusCode (res (snd out)) = 200%Z
  /\ Express.statusCode (res (snd out)) <> 500%Z.
Proof.
  cbv zeta. split; [reflexivity|]. split; [repeat split|].
  split; [intros [_ H]; discriminate H|].
  repeat split. discriminate.
Qed.

(* ------------------------------------------------------------------ *)
(** ** Claims on error translation *)

Lemma isProduction_true (node_env : option string) :
  App.isProduction node_env = true <-> node_env = Some "production".
Proof.
  destruct node_env as [v|]; simpl.
  - rewrite String.eqb_eq. split; [now intros -> | now intros [= ->]].
  - split; discriminate.
Qed.

Lemma isProduction_false (node_env : option string) :
  node_env <> Some "production" -> App.isProduction node_env = false.
Proof.
  intros H. destruct (App.isProduction node_env) eqn:E; [|reflexivity].
  now apply isProduction_true in E.
Qed.

Lemma orElse_nonempty (a b : string) : a <> "" -> App.orElse a b = a.
Proof. destruct a; [now intros [] | reflexivity]. Qed.

Lemma prefix_app (a b : string) : String.prefix a (a ++ b) = true.
Proof.
  induction a as [|c a IH]; simpl; [now destruct b|].
  destruct (ascii_dec c c); [exact IH | congruence].
Qed.

Lemma includes_prefix (sub s : string) :
  String.prefix sub s = true -> includes sub s = true.
Proof. intros H. destruct s; cbn [includes]; now rewrite H. Qed.

Lemma includes_app (sub a b : string) : includes sub (a ++ sub ++ b) = true.
Proof.
  induction a as [|c a IH].
  - change (includes sub (sub ++ b) = true).
    apply includes_prefix, prefix_app.
  - change (includes sub (String c (a ++ sub ++ b)) = true).
    cbn [includes].
    destruct (String.prefix sub (String c (a ++ sub ++ b)));
      [reflexivity | exact IH].
Qed.

(** C6, as the claim has it, fails for a P2002 error that carries no
    [meta.target]: the message of the middleware then says "field" and names
    no column of the table. *)
Lemma unique_violation_without_target_counterexample :
  custom (prismaError "P2002" None "Unique constraint failed") = None
  /\ code (prismaError "P2002" None "Unique constraint failed") = Some "P2002"
  /\ Express.sent (App.errorHandler None
                     (prismaError "P2002" None "Unique constraint failed")
                     Express.fresh)
     = Some (errorBody 400
               "A task with this field already exists. Please use a unique value.")
  /\ forallb
       (fun col =>
          negb (includes col
                  "A task with this field already exists. Please use a unique value."))
       columns = true.
Proof.
  repeat split.
Qed.

(** C6, amended.  A unique-constraint violation (code P2002) is answered with
    a body whose [statusCode] is 400.  The middleware's message names the
    first entry of [meta.target] when the error carries one that is not
    empty, and says "field" when it carries none; the message of
    [createTask]'s catch block names the title. *)
Theorem unique_violation_is_400 :
  (forall (node_env : option string) (err : JsError) (res : Express.Response)
          (f : string) (rest : list string),
     custom err = None -> code err = Some "P2002" ->
     meta_target err = Some (f :: rest) -> f <> "" ->
     let msg := "A task with this " ++ f
                  ++ " already exists. Please use a unique value." in
     Express.sent (App.errorHandler node_env err res) = Some (errorBody 400 msg)
     /\ includes f msg = true)
  /\ (forall (node_env : option string) (err : JsError) (res : Express.Response),
        custom err = None -> code err = Some "P2002" ->
        (meta_target err = None \/ meta_target err = Some []
         \/ exists rest, meta_target err = Some ("" :: rest)) ->
        Express.sent (App.errorHandler node_env err res)
        = Some (errorBody 400
                  "A task with this field already exists. Please use a unique value."))
  /\ (forall (e : JsError) (w : World),
        code e = Some "P2002" ->
        let out := TaskController.createTask_catch (Thrown e) w in
        let msg :=
          "A task with this title already exists. Please use a unique title." in
        answersError out 400 msg
        /\ includes "title" msg = true
        /\ table (snd out) = table w).
Proof.
  assert (G : forall node_env err res,
             custom err = None -> code err = Some "P2002" ->
             Express.sent (App.errorHandler node_env err res)
             = Some (errorBody 400
                       ("A task with this " ++ App.targetOf err
                          ++ " already exists. Please use a unique value."))).
  { intros node_env err res Hc Hcode. unfold App.errorHandler.
    rewrite Hc, Hcode. reflexivity. }
  split; [|split].
  - intros node_env err res f rest Hc Hcode Ht Hf. cbv zeta.
    rewrite (G node_env err res Hc Hcode).
    unfold App.targetOf. rewrite Ht, (orElse_nonempty f "field" Hf).
    split; [reflexivity | apply includes_app].
  - intros node_env err res Hc Hcode Ht.
    rewrite (G node_env err res Hc Hcode). unfold App.targetOf.
    destruct Ht as [-> | [-> | [rest ->]]]; reflexivity.
  - intros e w Hcode. cbv zeta. unfold TaskController.createTask_catch.
    rewrite Hcode. repeat split.
Qed.

Lemma unique_violation_is_400_witness :
  Express.sent (App.errorHandler None
                  (prismaError "P2002" (Some ["title"]) "Unique constraint failed")
                  Express.fresh)
  = Some (errorBody 400
            "A task with this title already exists. Please use a unique value.").
Proof.
  apply (proj1 unique_violation_is_400 None
           (prismaError "P2002" (Some ["title"]) "Unique constraint failed")
           Express.fresh "title" [] eq_refl eq_refl eq_refl).
  discriminate.
Defined.

(** C8, as the claim has it, fails for an error whose text is empty: outside
    production the answer then carries "Unknown error occurred", not the
    (empty) error text. *)
Lemma unclassified_empty_message_counterexample :
  custom (plainError "") = None /\ code (plainError "") = None
  /\ App.isProduction (Some "development") = false
  /\ Express.sent (App.errorHandler (Some "development") (plainError "")
                     Express.fresh)
     = Some (errorBody 500 "Unknown error occurred")
  /\ Express.sent (App.errorHandler (Some "development") (plainError "")
                     Express.fresh)
     <> Some (errorBody 500 (message (plainError ""))).
Proof.
  repeat split. discriminate.
Qed.

(** C8, amended.  For an error that is neither a [CustomError] nor carries a
    [code], the body the middleware sends has [statusCode] 500.  In
    production its message is the fixed fallback, so the whole answer is the
    same for any two such errors; outside production the message is the error
    text when that text is not empty, and "Unknown error occurred" when it
    is. *)
Theorem unclassified_error_is_500 (node_env : option string) (err : JsError)
    (res : Express.Response)
    (Hcustom : custom err = None) (Hcode : code err = None) :
  let r := App.errorHandler node_env err res in
  (node_env = Some "production" ->
   Express.sent r = Some (errorBody 500 App.genericFailure)
   /\ forall err', custom err' = None -> code err' = None ->
                   App.errorHandler node_env err' res = r)
  /\ (node_env <> Some "production" -> message err <> "" ->
      Express.sent r = Some (errorBody 500 (message err)))
  /\ (node_env <> Some "production" -> message err = "" ->
      Express.sent r = Some (errorBody 500 "Unknown error occurred")).
Proof.
  cbv zeta. unfold App.errorHandler. rewrite Hcustom, Hcode.
  split; [|split].
  - intros ->. split; [reflexivity|].
    intros err' Hc' Hcode'. now rewrite Hc', Hcode'.
  - intros Hdev Hmsg. rewrite (isProduction_false _ Hdev).
    now rewrite (orElse_nonempty _ _ Hmsg).
  - intros Hdev Hmsg. rewrite (isProduction_false _ Hdev), Hmsg. reflexivity.
Qed.

Lemma unclassified_error_is_500_witness :
  Express.sent (App.errorHandler (Some "production")
                  (plainError "connect ECONNREFUSED 127.0.0.1:3306") Express.fresh)
  = Some (errorBody 500 App.genericFailure)
  /\ Express.sent (App.errorHandler (Some "development")
                     (plainError "connect ECONNREFUSED 127.0.0.1:3306")
                     Express.fresh)
     = Some (errorBody 500 "connect ECONNREFUSED 127.0.0.1:3306").
Proof.
  split.
  - exact (proj1 (proj1 (unclassified_error_is_500 (Some "production")
                           (plainError "connect ECONNREFUSED 127.0.0.1:3306")
                           Express.fresh eq_refl eq_refl) eq_refl)).
  - apply (proj1 (proj2 (unclassified_error_is_500 (Some "development")
                           (plainError "connect ECONNREFUSED 127.0.0.1:3306")
                           Express.fresh eq_refl eq_refl))); discriminate.
Defined.

(* ------------------------------------------------------------------ *)
(** ** Further properties: normalization and validation *)

Section NormalForm.

Import JsString.

Lemma startsClean_lower (s : string) :
  startsClean (toLowerCase s) = startsClean s.
Proof. destruct s as [|c r]; simpl; [reflexivity | now rewrite lowerChar_white]. Qed.

Lemma endsClean_lower (s : string) : endsClean (toLowerCase s) = endsClean s.
Proof.
  induction s as [|c r IH]; [reflexivity|].
  destruct r as [|c' r']; simpl; [now rewrite lowerChar_white | exact IH].
Qed.

Lemma endsClean_trimEnd (s : string) : endsClean (trimEnd s) = true.
Proof.
  induction s as [|c r IH]; simpl; [reflexivity|].
  destruct (trimEnd r) as [|c' r'] eqn:E.
  - destruct (isWhiteSpace c) eqn:W; simpl; [reflexivity | now rewrite W].
  - exact IH.
Qed.

Lemma length_toLowerCase (s : string) :
  String.length (toLowerCase s) = String.length s.
Proof. induction s as [|c r IH]; simpl; [reflexivity | now rewrite IH]. Qed.

Lemma length_trimStart (s : string) :
  (String.length (trimStart s) <= String.length s)%nat.
Proof.
  induction s as [|c r IH]; simpl; [lia|].
  destruct (isWhiteSpace c); simpl; lia.
Qed.

Lemma length_trimEnd (s : string) :
  (String.length (trimEnd s) <= String.length s)%nat.
Proof.
  induction s as [|c r IH]; simpl; [lia|].
  destruct (trimEnd r); [destruct (isWhiteSpace c)|]; simpl in *; lia.
Qed.

Lemma trimStart_blank (s : string) : blank s = true -> trimStart s = "".
Proof.
  induction s as [|c r IH]; simpl; [reflexivity|].
  destruct (isWhiteSpace c); simpl; [exact IH | discriminate].
Qed.

Lemma trimEnd_empty_blank (s : string) : trimEnd s = "" -> blank s = true.
Proof.
  induction s as [|c r IH]; simpl; [reflexivity|].
  destruct (trimEnd r); [|discriminate].
  destruct (isWhiteSpace c); [intros _; now apply IH | discriminate].
Qed.

Lemma trimStart_empty_blank (s : string) : trimStart s = "" -> blank s = true.
Proof.
  induction s as [|c r IH]; simpl; [reflexivity|].
  destruct (isWhiteSpace c); simpl; [exact IH | discriminate].
Qed.

Lemma blank_trimStart_suffix (s : string) :
  blank (trimStart s) = true -> blank s = true.
Proof.
  induction s as [|c r IH]; simpl; [reflexivity|].
  destruct (isWhiteSpace c) eqn:W; simpl; [exact IH | now rewrite W].
Qed.

Lemma toLowerCase_empty (s : string) : toLowerCase s = "" -> s = "".
Proof. destruct s; [reflexivity | discriminate]. Qed.

End NormalForm.

Lemma normalize_empty_iff_blank (s : string) :
  TaskController.normalize s = "" <-> blank s = true.
Proof.
  unfold TaskController.normalize, JsString.trim. split.
  - intros H. apply toLowerCase_empty in H.
    apply trimEnd_empty_blank in H. now apply blank_trimStart_suffix.
  - intros H. now rewrite (trimStart_blank s H).
Qed.

(** X1.  The stored form of a title is a normal form: normalizing it again
    changes nothing, it neither begins nor ends with white space, it has no
    capital left, and it is empty exactly when the title consists of white
    space only. *)
Theorem normalize_normal_form (s : string) :
  let n := TaskController.normalize s in
  TaskController.normalize n = n
  /\ startsClean n = true
  /\ endsClean n = true
  /\ JsString.toLowerCase n = n
  /\ (n = "" <-> blank s = true).
Proof.
  cbv zeta. split; [apply normalize_idem|].
  split; [|split; [|split; [|apply normalize_empty_iff_blank]]];
    unfold TaskController.normalize, JsString.trim.
  - rewrite startsClean_lower. apply trimEnd_clean, trimStart_clean.
  - rewrite endsClean_lower. apply endsClean_trimEnd.
  - apply toLowerCase_idem.
Qed.

Lemma taskSchema_title_nonempty (body : json) (input : Zod.TaskInput) :
  Zod.taskSchema_parse body = inr input ->
  (1 <= String.length (Zod.title input))%nat.
Proof.
  unfold Zod.taskSchema_parse.
  destruct body as [| b | n | s | items | fields]; try discriminate.
  unfold Zod.titleField, Zod.z_string.
  destruct (get "title" fields) as [[| b | n | s | items | fs]|];
    try (destruct (Zod.colorField (get "color" fields));
         destruct (Zod.completedField (get "completed" fields)); discriminate).
  destruct (String.length s <? 1)%nat eqn:L;
    destruct (Zod.colorField (get "color" fields));
    destruct (Zod.completedField (get "completed" fields)); try discriminate.
  intros [= <-]. simpl. apply Nat.ltb_ge in L. exact L.
Qed.

(** X2.  [taskSchema] accepts a title made of white space only (it checks
    the length before trimming), and [createTask] then stores the empty
    title: when no task with the empty title exists, the row is appended with
    title "" and answered with 201. *)
Theorem blank_title_stored_empty (req : Request) (w : World)
    (input : Zod.TaskInput)
    (Hvalid : Zod.taskSchema_parse (body req) = inr input)
    (Hblank : blank (Zod.title input) = true)
    (Hfree : Prisma.findUniqueByTitle "" (table w) = None) :
  let out := TaskController.createTask req w in
  let row := Prisma.mkTask (Prisma.nextId (table w)) "" (Zod.color input) false in
  (1 <= String.length (Zod.title input))%nat
  /\ Prisma.rows (table (snd out)) = (Prisma.rows (table w) ++ [row])%list
  /\ answersSuccess out 201 "Task created successfully" (Prisma.taskJson row).
Proof.
  cbv zeta. split; [exact (taskSchema_title_nonempty _ _ Hvalid)|].
  assert (N : TaskController.normalize (Zod.title input) = "")
    by now apply normalize_empty_iff_blank.
  rewrite <- N in Hfree.
  rewrite (createTask_new req w input Hvalid Hfree). rewrite N. repeat split.
Qed.

Lemma blank_title_stored_empty_witness :
  Zod.taskSchema_parse (body blankTitle) = inr (Zod.mkTaskInput "   " "grey" None)
  /\ Prisma.rows (table (snd (TaskController.createTask blankTitle
                                (start learnPrisma))))
     = [Prisma.mkTask 1 "learn prisma" "blue" false;
        Prisma.mkTask 2 "" "grey" false].
Proof.
  split; [reflexivity|].
  exact (proj1 (proj2 (blank_title_stored_empty blankTitle (start learnPrisma)
                         (Zod.mkTaskInput "   " "grey" None)
                         eq_refl eq_refl eq_refl))).
Defined.

(* ------------------------------------------------------------------ *)
(** ** Further properties: the two modes of taskSchema *)

Lemma optional_present {A : Type} (p : Zod.parser A) (v : json) :
  Zod.optional p (Some v)
  = match p (Some v) with inl msg => inl msg | inr a => inr (Some a) end.
Proof. reflexivity. Qed.

Lemma titleField_absent : exists msg, Zod.titleField None = inl msg.
Proof. eexists; reflexivity. Qed.

Lemma colorField_absent : exists msg, Zod.colorField None = inl msg.
Proof. eexists; reflexivity. Qed.

Lemma taskSchema_partial_parse_error (body : json) (e : exn) :
  Zod.taskSchema_partial_parse body = inl e ->
  exists first rest, e = ZodError (first :: rest).
Proof.
  unfold Zod.taskSchema_partial_parse.
  destruct body as [| b | n | s | items | fields];
    try (intros H; injection H as <-; eexists; eexists; reflexivity).
  destruct (Zod.optional Zod.titleField (get "title" fields)) as [mt|t];
    destruct (Zod.optional Zod.colorField (get "color" fields)) as [mc|c];
    destruct (Zod.optional Zod.completedField (get "completed" fields)) as [md|d];
    intros H; try discriminate H;
    injection H as <-; eexists; eexists; reflexivity.
Qed.

Lemma optional_of_required {A : Type} (p : Zod.parser A) (v : option json) (a : A) :
  (exists msg, p None = inl msg) ->
  (p v = inr a <-> Zod.optional p v = inr (Some a)).
Proof.
  intros [msg Hnone]. destruct v as [x|]; simpl.
  - destruct (p (Some x)); split; congruence.
  - rewrite Hnone. split; discriminate.
Qed.

Lemma optional_completed (v : option json) :
  match Zod.optional Zod.completedField v with
  | inl msg => Zod.completedField v = inl msg
  | inr d => Zod.completedField v = inr (flattenCompleted d)
  end.
Proof.
  destruct v as [x|]; [|reflexivity].
  rewrite optional_present.
  destruct (Zod.completedField (Some x)); reflexivity.
Qed.

(** X3.  Whatever [taskSchema] accepts, [taskSchema.partial()] accepts with
    the same fields; conversely a body the partial schema accepts with both a
    title and a colour is accepted by [taskSchema] with these values. *)
Theorem partial_schema_is_weaker (body : json) :
  (forall input,
     Zod.taskSchema_parse body = inr input ->
     Zod.taskSchema_partial_parse body
     = inr (Zod.mkPartialTaskInput (Some (Zod.title input))
              (Some (Zod.color input)) (Zod.completed input)))
  /\ (forall t c d,
        Zod.taskSchema_partial_parse body
        = inr (Zod.mkPartialTaskInput (Some t) (Some c) d) ->
        Zod.taskSchema_parse body = inr (Zod.mkTaskInput t c d)).
Proof.
  unfold Zod.taskSchema_parse, Zod.taskSchema_partial_parse.
  destruct body as [| b | n | s | items | fields]; try (split; intros; discriminate).
  pose proof (optional_completed (get "completed" fields)) as Hd.
  fold flattenCompleted.
  split.
  - intros input.
    destruct (Zod.titleField (get "title" fields)) as [mt|t] eqn:Et;
      destruct (Zod.colorField (get "color" fields)) as [mc|c] eqn:Ec;
      destruct (Zod.completedField (get "completed" fields)) as [md|d] eqn:Ed;
      try discriminate.
    intros [= <-].
    apply (optional_of_required _ _ _ titleField_absent) in Et.
    apply (optional_of_required _ _ _ colorField_absent) in Ec.
    rewrite Et, Ec.
    destruct (Zod.optional Zod.completedField (get "completed" fields)) as [md|d'];
      [discriminate|].
    injection Hd as ->. reflexivity.
  - intros t c d.
    destruct (Zod.optional Zod.titleField (get "title" fields)) as [mt|t'] eqn:Et;
      destruct (Zod.optional Zod.colorField (get "color" fields)) as [mc|c'] eqn:Ec;
      destruct (Zod.optional Zod.completedField (get "completed" fields))
        as [md|d'] eqn:Ed;
      try discriminate.
    intros [= -> -> <-].
    apply (optional_of_required _ _ _ titleField_absent) in Et.
    apply (optional_of_required _ _ _ colorField_absent) in Ec.
    now rewrite Et, Ec, Hd.
Qed.

Lemma partial_schema_is_weaker_witness :
  Zod.taskSchema_parse (body alreadyDone)
  = inr (Zod.mkTaskInput "Write Tests" "red" (Some true))
  /\ Zod.taskSchema_partial_parse (body alreadyDone)
     = inr (Zod.mkPartialTaskInput (Some "Write Tests") (Some "red") (Some true)).
Proof.
  split; [reflexivity|].
  exact (proj1 (partial_schema_is_weaker (body alreadyDone))
           (Zod.mkTaskInput "Write Tests" "red" (Some true)) eq_refl).
Defined.

(** Both modes of the schema read the three known keys only. *)
Lemma schema_reads_known_keys_only (fields fields' : list (string * json))
    (Htitle : get "title" fields = get "title" fields')
    (Hcolor : get "color" fields = get "color" fields')
    (Hcompleted : get "completed" fields = get "completed" fields') :
  Zod.taskSchema_parse (JObj fields) = Zod.taskSchema_parse (JObj fields')
  /\ Zod.taskSchema_partial_parse (JObj fields)
     = Zod.taskSchema_partial_parse (JObj fields').
Proof.
  unfold Zod.taskSchema_parse, Zod.taskSchema_partial_parse.
  now rewrite Htitle, Hcolor, Hcompleted.
Qed.

Lemma schema_reads_known_keys_only_witness :
  Zod.taskSchema_parse
    (JObj [("id", JNum 99); ("title", JStr "Write Tests"); ("color", JStr "red")])
  = Zod.taskSchema_parse
      (JObj [("title", JStr "Write Tests"); ("color", JStr "red")]).
Proof.
  exact (proj1 (schema_reads_known_keys_only
                  [("id", JNum 99); ("title", JStr "Write Tests");
                   ("color", JStr "red")]
                  [("title", JStr "Write Tests"); ("color", JStr "red")]
                  eq_refl eq_refl eq_refl)).
Defined.

(* ------------------------------------------------------------------ *)
(** ** Further properties: look-ups after a write *)

Lemma find_filter_other (i j : Z) (l : list Prisma.Task) :
  j <> i ->
  find (fun r => Z.eqb (Prisma.id r) j)
       (filter (fun r => negb (Z.eqb (Prisma.id r) i)) l)
  = find (fun r => Z.eqb (Prisma.id r) j) l.
Proof.
  intros Hji. induction l as [|x l IH]; simpl; [reflexivity|].
  destruct (Z.eqb (Prisma.id x) i) eqn:Ei; simpl.
  - apply Z.eqb_eq in Ei.
    destruct (Z.eqb (Prisma.id x) j) eqn:Ej; [|exact IH].
    apply Z.eqb_eq in Ej. congruence.
  - now rewrite IH.
Qed.

Lemma find_filter_self (i : Z) (l : list Prisma.Task) :
  find (fun r => Z.eqb (Prisma.id r) i)
       (filter (fun r => negb (Z.eqb (Prisma.id r) i)) l) = None.
Proof.
  induction l as [|x l IH]; simpl; [reflexivity|].
  destruct (Z.eqb (Prisma.id x) i) eqn:Ei; simpl; [exact IH|].
  now rewrite Ei.
Qed.

Lemma map_id_replaceRow (row : Prisma.Task) (l : list Prisma.Task) :
  map Prisma.id (Prisma.replaceRow row l) = map Prisma.id l.
Proof.
  induction l as [|x l IH]; simpl; [reflexivity|].
  destruct (Z.eqb (Prisma.id x) (Prisma.id row)) eqn:E; simpl.
  - apply Z.eqb_eq in E. now rewrite E.
  - now rewrite IH.
Qed.

Lemma find_replaceRow_self (row old : Prisma.Task) (l : list Prisma.Task) :
  find (fun r => Z.eqb (Prisma.id r) (Prisma.id row)) l = Some old ->
  find (fun r => Z.eqb (Prisma.id r) (Prisma.id row)) (Prisma.replaceRow row l)
  = Some row.
Proof.
  induction l as [|x l IH]; simpl; [discriminate|].
  destruct (Z.eqb (Prisma.id x) (Prisma.id row)) eqn:E; simpl.
  - intros _. now rewrite Z.eqb_refl.
  - rewrite E. exact IH.
Qed.

Lemma find_replaceRow_other (row : Prisma.Task) (j : Z) (l : list Prisma.Task) :
  j <> Prisma.id row ->
  find (fun r => Z.eqb (Prisma.id r) j) (Prisma.replaceRow row l)
  = find (fun r => Z.eqb (Prisma.id r) j) l.
Proof.
  intros Hj. induction l as [|x l IH]; simpl; [reflexivity|].
  destruct (Z.eqb (Prisma.id x) (Prisma.id row)) eqn:E; simpl.
  - apply Z.eqb_eq in E.
    destruct (Z.eqb (Prisma.id x) j) eqn:Ex.
    + apply Z.eqb_eq in Ex. congruence.
    + destruct (Z.eqb (Prisma.id row) j) eqn:Er; [|reflexivity].
      apply Z.eqb_eq in Er. congruence.
  - now rewrite IH.
Qed.

Lemma merge_id (old : Prisma.Task) (data : Zod.PartialTaskInput) :
  Prisma.id (Prisma.merge old data) = Prisma.id old.
Proof. reflexivity. Qed.

(** [prisma.task.update] on a row that exists, when the new title, if any, is
    not taken by another row. *)
Lemma update_accepted (i : Z) (data : Zod.PartialTaskInput) (tbl : Prisma.Table)
    (old : Prisma.Task) :
  Prisma.findUniqueById i tbl = Some old ->
  (forall t, Zod.ptitle data = Some t -> Prisma.titleTakenByOther i t tbl = false) ->
  Prisma.update i data tbl
  = inr (Prisma.merge old data,
         Prisma.mkTable (Prisma.replaceRow (Prisma.merge old data) (Prisma.rows tbl))
                        (Prisma.nextId tbl)).
Proof.
  intros Hfound Hfree. unfold Prisma.update. rewrite Hfound.
  destruct (Zod.ptitle data) as [t|]; [|reflexivity].
  now rewrite (Hfree t eq_refl).
Qed.

Lemma update_rejected (i : Z) (data : Zod.PartialTaskInput) (tbl : Prisma.Table)
    (old : Prisma.Task) (t : string) :
  Prisma.findUniqueById i tbl = Some old ->
  Zod.ptitle data = Some t -> Prisma.titleTakenByOther i t tbl = true ->
  Prisma.update i data tbl = inl Prisma.uniqueViolation.
Proof.
  intros Hfound Ht Htaken. unfold Prisma.update. now rewrite Hfound, Ht, Htaken.
Qed.

(* ------------------------------------------------------------------ *)
(** ** updateTask and deleteTask, branch by branch *)

Lemma findUniqueWhereId_int (i : Z) (tbl : Prisma.Table) :
  Prisma.findUniqueWhereId (JsInt i) tbl = inr (Prisma.findUniqueById i tbl).
Proof. reflexivity. Qed.

Section UpdateDelete.

Variables (req : Request) (w : World).

Section IntegerId.

Variable i : Z.
Hypothesis Hid : params_id req = JsInt i.

Lemma updateTask_missing :
  Prisma.findUniqueById i (table w) = None ->
  TaskController.updateTask req w
  = (inr tt,
     mkWorld (table w)
             (ResponseHelper.sendError (res w) "Task not found" (Some 404%Z))
             (nextCalls w)).
Proof.
  intros H.
  unfold TaskController.updateTask, TaskController.updateTask_try,
    tryCatch, bind, attempt.
  now rewrite Hid, findUniqueWhereId_int, H.
Qed.

Lemma updateTask_invalid (old : Prisma.Task) (first : string) (rest : list string) :
  Prisma.findUniqueById i (table w) = Some old ->
  Zod.taskSchema_partial_parse (body req) = inl (ZodError (first :: rest)) ->
  TaskController.updateTask req w
  = (inr tt,
     mkWorld (table w)
             (ResponseHelper.sendError (res w) first (Some 400%Z))
             (nextCalls w)).
Proof.
  intros H P.
  unfold TaskController.updateTask, TaskController.updateTask_try,
    tryCatch, bind, attempt, ofResult.
  now rewrite Hid, findUniqueWhereId_int, H, P.
Qed.

Lemma updateTask_refused (old : Prisma.Task) (data : Zod.PartialTaskInput)
    (e : JsError) :
  Prisma.findUniqueById i (table w) = Some old ->
  Zod.taskSchema_partial_parse (body req) = inr data ->
  Prisma.update i data (table w) = inl (Thrown e) ->
  TaskController.updateTask req w
  = (inr tt,
     mkWorld (table w)
             (ResponseHelper.sendError (res w) "Failed to update task" (Some 500%Z))
             (S (nextCalls w))).
Proof.
  intros H P U.
  unfold TaskController.updateTask, TaskController.updateTask_try,
    tryCatch, bind, attempt, ofResult, mutate.
  rewrite Hid, findUniqueWhereId_int, H, P. cbn [table].
  unfold Prisma.updateWhereId, Prisma.whereId. now rewrite U.
Qed.

Lemma updateTask_done (old : Prisma.Task) (data : Zod.PartialTaskInput)
    (row : Prisma.Task) (tbl : Prisma.Table) :
  Prisma.findUniqueById i (table w) = Some old ->
  Zod.taskSchema_partial_parse (body req) = inr data ->
  Prisma.update i data (table w) = inr (row, tbl) ->
  TaskController.updateTask req w
  = (inr tt,
     mkWorld tbl
             (ResponseHelper.sendSuccess (res w) (Prisma.taskJson row)
                (Some "Task updated successfully") None)
             (nextCalls w)).
Proof.
  intros H P U.
  unfold TaskController.updateTask, TaskController.updateTask_try,
    tryCatch, bind, attempt, ofResult, mutate.
  rewrite Hid, findUniqueWhereId_int, H, P. cbn [table].
  unfold Prisma.updateWhereId, Prisma.whereId. now rewrite U.
Qed.

Lemma deleteTask_missing :
  Prisma.findUniqueById i (table w) = None ->
  TaskController.deleteTask req w
  = (inr tt,
     mkWorld (table w)
             (ResponseHelper.sendError (res w) "Task not found" (Some 404%Z))
             (nextCalls w)).
Proof.
  intros H.
  unfold TaskController.deleteTask, TaskController.deleteTask_try,
    tryCatch, bind, attempt.
  now rewrite Hid, findUniqueWhereId_int, H.
Qed.

Lemma deleteTask_done (old : Prisma.Task) :
  Prisma.findUniqueById i (table w) = Some old ->
  TaskController.deleteTask req w
  = (inr tt,
     mkWorld (Prisma.mkTable
                (filter (fun r => negb (Z.eqb (Prisma.id r) i))
                        (Prisma.rows (table w)))
                (Prisma.nextId (table w)))
             (ResponseHelper.sendSuccess (res w) JNull
                (Some "Task deleted successfully") None)
             (nextCalls w)).
Proof.
  intros H.
  unfold TaskController.deleteTask, TaskController.deleteTask_try,
    tryCatch, bind, attempt, mutate.
  rewrite Hid, findUniqueWhereId_int, H. cbn [table].
  unfold Prisma.deleteWhereId, Prisma.whereId, Prisma.delete. now rewrite H.
Qed.

End IntegerId.

(** An id that is no integer: the look-up throws and the catch blocks
    answer. *)
Lemma updateTask_not_int :
  params_id req = NotInt ->
  TaskController.updateTask req w
  = (inr tt,
     mkWorld (table w)
             (ResponseHelper.sendError (res w) "Failed to update task" (Some 500%Z))
             (S (nextCalls w))).
Proof.
  intros H.
  unfold TaskController.updateTask, TaskController.updateTask_try,
    tryCatch, bind, attempt.
  now rewrite H.
Qed.

Lemma deleteTask_not_int :
  params_id req = NotInt ->
  TaskController.deleteTask req w
  = (inr tt,
     mkWorld (table w)
             (ResponseHelper.sendError (res w) "Failed to delete task" (Some 500%Z))
             (S (nextCalls w))).
Proof.
  intros H.
  unfold TaskController.deleteTask, TaskController.deleteTask_try,
    tryCatch, bind, attempt.
  now rewrite H.
Qed.

End UpdateDelete.

(* ------------------------------------------------------------------ *)
(** ** Further properties: what each handler does to the table *)

Lemma createTask_table (req : Request) (w : World) :
  table (snd (TaskController.createTask req w)) = table w
  \/ exists input,
       Zod.taskSchema_parse (body req) = inr input
       /\ Prisma.findUniqueByTitle (TaskController.normalize (Zod.title input))
            (table w) = None
       /\ table (snd (TaskController.createTask req w))
          = Prisma.mkTable
              (Prisma.rows (table w)
                 ++ [Prisma.mkTask (Prisma.nextId (table w))
                       (TaskController.normalize (Zod.title input))
                       (Zod.color input) false])
              (Prisma.nextId (table w) + 1).
Proof.
  destruct (Zod.taskSchema_parse (body req)) as [e|input] eqn:P.
  - destruct (taskSchema_parse_error _ _ P) as (first & rest & -> & _).
    rewrite (createTask_invalid req w first rest P). now left.
  - destruct (Prisma.findUniqueByTitle
                (TaskController.normalize (Zod.title input)) (table w))
      as [existing|] eqn:E.
    + rewrite (createTask_existing req w input existing P E). now left.
    + right. exists input. rewrite (createTask_new req w input P E).
      repeat split. exact E.
Qed.

Lemma updateTask_table (req : Request) (w : World) :
  table (snd (TaskController.updateTask req w)) = table w
  \/ exists i old data,
       params_id req = JsInt i
       /\ Prisma.findUniqueById i (table w) = Some old
       /\ Zod.taskSchema_partial_parse (body req) = inr data
       /\ (forall t, Zod.ptitle data = Some t ->
                     Prisma.titleTakenByOther i t (table w) = false)
       /\ table (snd (TaskController.updateTask req w))
          = Prisma.mkTable
              (Prisma.replaceRow (Prisma.merge old data) (Prisma.rows (table w)))
              (Prisma.nextId (table w)).
Proof.
  destruct (params_id req) as [i|] eqn:Hid.
  2: { rewrite (updateTask_not_int req w Hid). now left. }
  destruct (Prisma.findUniqueById i (table w)) as [old|] eqn:F.
  2: { rewrite (updateTask_missing req w i Hid F). now left. }
  destruct (Zod.taskSchema_partial_parse (body req)) as [e|data] eqn:P.
  { destruct (taskSchema_partial_parse_error _ _ P) as (first & rest & ->).
    rewrite (updateTask_invalid req w i Hid old first rest F P). now left. }
  destruct (Zod.ptitle data) as [t|] eqn:T.
  - destruct (Prisma.titleTakenByOther i t (table w)) eqn:K.
    + rewrite (updateTask_refused req w i Hid old data _ F P
                 (update_rejected _ _ _ old t F T K)).
      now left.
    + right. exists i, old, data.
      assert (Hfree : forall t', Zod.ptitle data = Some t' ->
                Prisma.titleTakenByOther i t' (table w) = false).
      { intros t' Ht'. rewrite T in Ht'. now injection Ht' as <-. }
      rewrite (updateTask_done req w i Hid old data _ _ F P
                 (update_accepted _ _ _ old F Hfree)).
      repeat split; assumption.
  - right. exists i, old, data.
    assert (Hfree : forall t', Zod.ptitle data = Some t' ->
              Prisma.titleTakenByOther i t' (table w) = false).
    { intros t' Ht'. rewrite T in Ht'. discriminate. }
    rewrite (updateTask_done req w i Hid old data _ _ F P
               (update_accepted _ _ _ old F Hfree)).
    repeat split; assumption.
Qed.

Lemma deleteTask_table (req : Request) (w : World) :
  table (snd (TaskController.deleteTask req w))
  = match params_id req with
    | JsInt i =>
        Prisma.mkTable
          (filter (fun r => negb (Z.eqb (Prisma.id r) i)) (Prisma.rows (table w)))
          (Prisma.nextId (table w))
    | NotInt => table w
    end.
Proof.
  destruct (params_id req) as [i|] eqn:Hid.
  2: { now rewrite (deleteTask_not_int req w Hid). }
  destruct (Prisma.findUniqueById i (table w)) as [old|] eqn:F.
  - now rewrite (deleteTask_done req w i Hid old F).
  - rewrite (deleteTask_missing req w i Hid F). cbn [snd table].
    assert (H : filter (fun r => negb (Z.eqb (Prisma.id r) i))
                       (Prisma.rows (table w)) = Prisma.rows (table w)).
    { apply forallb_filter_id. apply forallb_forall. intros r Hin.
      apply (find_none _ _ F) in Hin. simpl in Hin. now rewrite Hin. }
    rewrite H. now destruct (table w).
Qed.

(** X4.  [createTask] always returns, and what it answers is one of three
    things: 201 with the row it appended, the 400 duplicate message, or 400
    with the first validation message; in the last two cases the table is as
    before.  On its own it never reaches "Failed to create task". *)
Theorem createTask_outcomes (req : Request) (w : World) :
  let out := TaskController.createTask req w in
  fst out = inr tt
  /\ ((exists row,
         answersSuccess out 201 "Task created successfully" (Prisma.taskJson row)
         /\ Prisma.rows (table (snd out)) = (Prisma.rows (table w) ++ [row])%list)
      \/ (answersError out 400 TaskController.duplicateTitle
          /\ table (snd out) = table w)
      \/ (exists msg,
            firstViolation (body req) = Some msg
            /\ answersError out 400 msg /\ table (snd out) = table w))
  /\ ~ answersError out 500 "Failed to create task".
Proof.
  cbv zeta.
  destruct (Zod.taskSchema_parse (body req)) as [e|input] eqn:P.
  - destruct (taskSchema_parse_error _ _ P) as (first & rest & -> & Hfirst).
    rewrite (createTask_invalid req w first rest P).
    split; [reflexivity|]. split.
    + right. right. exists first. repeat split. exact Hfirst.
    + intros [_ H]. discriminate H.
  - destruct (Prisma.findUniqueByTitle
                (TaskController.normalize (Zod.title input)) (table w))
      as [existing|] eqn:E.
    + rewrite (createTask_existing req w input existing P E).
      split; [reflexivity|]. split.
      * right. left. repeat split.
      * intros [_ H]. discriminate H.
    + rewrite (createTask_new req w input P E).
      split; [reflexivity|]. split.
      * left. eexists. repeat split.
      * intros [_ H]. discriminate H.
Qed.

(** X5.  Creating twice: after any valid create request (accepted or not), a
    second valid request whose title has the same normal form is answered
    with the 400 duplicate message and changes nothing. *)
Theorem createTask_repeat_rejected (req1 req2 : Request) (w : World)
    (input1 input2 : Zod.TaskInput)
    (Hvalid1 : Zod.taskSchema_parse (body req1) = inr input1)
    (Hvalid2 : Zod.taskSchema_parse (body req2) = inr input2)
    (Hsame : TaskController.normalize (Zod.title input2)
             = TaskController.normalize (Zod.title input1)) :
  let w1 := snd (TaskController.createTask req1 w) in
  let out := TaskController.createTask req2 w1 in
  answersError out 400 TaskController.duplicateTitle
  /\ table (snd out) = table w1.
Proof.
  cbv zeta.
  assert (F : exists r,
             Prisma.findUniqueByTitle (TaskController.normalize (Zod.title input2))
               (table (snd (TaskController.createTask req1 w))) = Some r).
  { rewrite Hsame.
    destruct (Prisma.findUniqueByTitle
                (TaskController.normalize (Zod.title input1)) (table w))
      as [existing|] eqn:E.
    - rewrite (createTask_existing req1 w input1 existing Hvalid1 E).
      now exists existing.
    - rewrite (createTask_new req1 w input1 Hvalid1 E). cbn [snd table].
      apply (find_title_some _ _
               (Prisma.mkTask (Prisma.nextId (table w))
                  (TaskController.normalize (Zod.title input1))
                  (Zod.color input1) false)); [|reflexivity].
      cbn [Prisma.rows]. apply in_or_app. right. left. reflexivity. }
  destruct F as [r F].
  rewrite (createTask_existing req2 _ input2 r Hvalid2 F). repeat split.
Qed.

Lemma createTask_repeat_rejected_witness :
  Prisma.rows (table (snd (TaskController.createTask learnPrismaPost
                             (start emptyTable))))
  = [Prisma.mkTask 1 "learn prisma" "blue" false]
  /\ answersError
       (TaskController.createTask shouting
          (snd (TaskController.createTask learnPrismaPost (start emptyTable))))
       400 TaskController.duplicateTitle.
Proof.
  split; [reflexivity|].
  exact (proj1 (createTask_repeat_rejected learnPrismaPost shouting
                  (start emptyTable)
                  (Zod.mkTaskInput "Learn Prisma" "blue" None)
                  (Zod.mkTaskInput "  LEARN PRISMA " "red" None)
                  eq_refl eq_refl eq_refl)).
Defined.

(* ------------------------------------------------------------------ *)
(** ** Further properties: updateTask and deleteTask *)

(** X6.  A valid update of an existing task whose new title, if any, no other
    task holds: the answer is 200 with the merged row, which is what the id
    now finds; fields absent from the body keep their value, a title is
    stored as the body gives it, and every other id finds what it found
    before. *)
Theorem updateTask_applies_fields (req : Request) (w : World) (i : Z)
    (old : Prisma.Task) (data : Zod.PartialTaskInput)
    (Hid : params_id req = JsInt i)
    (Hfound : Prisma.findUniqueById i (table w) = Some old)
    (Hvalid : Zod.taskSchema_partial_parse (body req) = inr data)
    (Hfree : forall t, Zod.ptitle data = Some t ->
               Prisma.titleTakenByOther i t (table w) = false) :
  let out := TaskController.updateTask req w in
  let row := Prisma.merge old data in
  answersSuccess out 200 "Task updated successfully" (Prisma.taskJson row)
  /\ Prisma.findUniqueById i (table (snd out)) = Some row
  /\ (forall j, j <> i ->
        Prisma.findUniqueById j (table (snd out))
        = Prisma.findUniqueById j (table w))
  /\ Prisma.id row = i
  /\ (forall t, Zod.ptitle data = Some t -> Prisma.title row = t)
  /\ (Zod.ptitle data = None -> Prisma.title row = Prisma.title old)
  /\ (Zod.pcolor data = None -> Prisma.color row = Prisma.color old)
  /\ (Zod.pcompleted data = None -> Prisma.completed row = Prisma.completed old)
  /\ nextCalls (snd out) = nextCalls w.
Proof.
  cbv zeta.
  rewrite (updateTask_done req w i Hid old data _ _ Hfound Hvalid
             (update_accepted _ _ _ old Hfound Hfree)).
  pose proof (find_id_matches _ _ _ Hfound) as Hi.
  unfold Prisma.findUniqueById in *. cbn [snd table Prisma.rows].
  split; [repeat split|]. split.
  { assert (Hrow : i = Prisma.id (Prisma.merge old data))
      by (rewrite merge_id; congruence).
    rewrite Hrow. apply (find_replaceRow_self _ old).
    rewrite <- Hrow. exact Hfound. }
  split.
  { intros j Hj. apply find_replaceRow_other. rewrite merge_id. congruence. }
  split; [exact Hi|].
  repeat split.
  - intros t Ht. simpl. now rewrite Ht.
  - intros Ht. simpl. now rewrite Ht.
  - intros Hc. simpl. now rewrite Hc.
  - intros Hc. simpl. now rewrite Hc.
Qed.

Lemma updateTask_applies_fields_witness :
  Zod.taskSchema_partial_parse (body repaintDog)
  = inr (Zod.mkPartialTaskInput None (Some "black") (Some true))
  /\ Prisma.findUniqueById 2
       (table (snd (TaskController.updateTask repaintDog (start twoTasks))))
     = Some (Prisma.mkTask 2 "walk dog" "black" true).
Proof.
  split; [reflexivity|].
  assert (H : forall t,
             Zod.ptitle (Zod.mkPartialTaskInput None (Some "black") (Some true))
             = Some t ->
             Prisma.titleTakenByOther 2 t (table (start twoTasks)) = false)
    by discriminate.
  exact (proj1 (proj2 (updateTask_applies_fields repaintDog (start twoTasks) 2 dog
                         (Zod.mkPartialTaskInput None (Some "black") (Some true))
                         eq_refl eq_refl eq_refl H))).
Defined.

(** X7.  An update of an existing task with a body the partial schema
    rejects is answered with 400 and the first issue's message, "Title is
    required" for an empty title; the table is as before and, unlike in
    [createTask], [next] is not called. *)
Theorem updateTask_invalid_body (req : Request) (w : World) (old : Prisma.Task)
    (e : exn)
    (Hfound : Prisma.findUniqueWhereId (params_id req) (table w) = inr (Some old))
    (Hinvalid : Zod.taskSchema_partial_parse (body req) = inl e) :
  let out := TaskController.updateTask req w in
  exists msg rest,
    e = ZodError (msg :: rest)
    /\ answersError out 400 msg
    /\ table (snd out) = table w
    /\ nextCalls (snd out) = nextCalls w
    /\ (forall fields, body req = JObj fields ->
          get "title" fields = Some (JStr "") -> msg = "Title is required").
Proof.
  cbv zeta.
  destruct (taskSchema_partial_parse_error _ _ Hinvalid) as (first & rest & ->).
  exists first, rest.
  destruct (whereId_found _ _ _ Hfound) as (i & Hid & Hi).
  rewrite (updateTask_invalid req w i Hid old first rest Hi Hinvalid).
  repeat split.
  intros fields Hb Ht. rewrite Hb in Hinvalid.
  unfold Zod.taskSchema_partial_parse in Hinvalid. rewrite Ht in Hinvalid.
  rewrite optional_present in Hinvalid. cbn in Hinvalid.
  destruct (Zod.optional Zod.colorField (get "color" fields));
    destruct (Zod.optional Zod.completedField (get "completed" fields));
    now injection Hinvalid.
Qed.

Lemma updateTask_invalid_body_witness :
  Zod.taskSchema_partial_parse (body badCompleted)
  = inl (ZodError ["Expected boolean, received string"])
  /\ exists msg rest,
       ZodError ["Expected boolean, received string"] = ZodError (msg :: rest)
       /\ answersError (TaskController.updateTask badCompleted (start twoTasks))
                       400 msg
       /\ table (snd (TaskController.updateTask badCompleted (start twoTasks)))
          = table (start twoTasks)
       /\ nextCalls (snd (TaskController.updateTask badCompleted (start twoTasks)))
          = nextCalls (start twoTasks)
       /\ (forall fields, body badCompleted = JObj fields ->
             get "title" fields = Some (JStr "") -> msg = "Title is required").
Proof.
  split; [reflexivity|].
  exact (updateTask_invalid_body badCompleted (start twoTasks) dog
           (ZodError ["Expected boolean, received string"]) eq_refl eq_refl).
Defined.

(** X8.  [updateTask] never adds or removes a row and never changes an id:
    whatever the request, the ids in the table, in order, and the next
    auto-increment value are as before. *)
Theorem updateTask_keeps_ids (req : Request) (w : World) :
  let tbl := table (snd (TaskController.updateTask req w)) in
  map Prisma.id (Prisma.rows tbl) = map Prisma.id (Prisma.rows (table w))
  /\ List.length (Prisma.rows tbl) = List.length (Prisma.rows (table w))
  /\ Prisma.nextId tbl = Prisma.nextId (table w).
Proof.
  cbv zeta.
  destruct (updateTask_table req w) as [-> | (i & old & data & _ & _ & _ & _ & ->)].
  - repeat split.
  - cbn [Prisma.rows Prisma.nextId].
    pose proof (map_id_replaceRow (Prisma.merge old data) (Prisma.rows (table w)))
      as H.
    split; [exact H|]. split; [|reflexivity].
    rewrite <- (length_map Prisma.id), H. apply length_map.
Qed.

(** X9.  Deleting an existing task answers 200 with [data: null]; the id
    finds nothing afterwards, every other id finds what it found before, and
    the next auto-increment value is not given back. *)
Theorem deleteTask_removes (req : Request) (w : World) (i : Z) (old : Prisma.Task)
    (Hid : params_id req = JsInt i)
    (Hfound : Prisma.findUniqueById i (table w) = Some old) :
  let out := TaskController.deleteTask req w in
  answersSuccess out 200 "Task deleted successfully" JNull
  /\ Prisma.findUniqueById i (table (snd out)) = None
  /\ (forall j, j <> i ->
        Prisma.findUniqueById j (table (snd out))
        = Prisma.findUniqueById j (table w))
  /\ Prisma.nextId (table (snd out)) = Prisma.nextId (table w)
  /\ nextCalls (snd out) = nextCalls w.
Proof.
  cbv zeta. rewrite (deleteTask_done req w i Hid old Hfound).
  unfold Prisma.findUniqueById. cbn [snd table Prisma.rows Prisma.nextId].
  split; [repeat split|]. split; [apply find_filter_self|].
  split; [|split; reflexivity].
  intros j Hj. now apply find_filter_other.
Qed.

Lemma deleteTask_removes_witness :
  Prisma.findUniqueById 2 (table (start twoTasks)) = Some dog
  /\ Prisma.rows (table (snd (TaskController.deleteTask deleteDog (start twoTasks))))
     = [milk]
  /\ answersSuccess (TaskController.deleteTask deleteDog (start twoTasks))
                    200 "Task deleted successfully" JNull.
Proof.
  split; [reflexivity|]. split; [reflexivity|].
  exact (proj1 (deleteTask_removes deleteDog (start twoTasks) 2 dog
                  eq_refl eq_refl)).
Defined.

(** X10.  Deleting twice.  When [Number(id)] is an integer, whatever the first
    [deleteTask] answered, a second one for the same id answers 404 "Task not
    found" and changes nothing.  When it is not (as for "abc"), the look-up
    throws each time: both calls answer 500 "Failed to delete task" and the
    table stays as it was. *)
Theorem deleteTask_twice (req : Request) (w : World) :
  let w1 := snd (TaskController.deleteTask req w) in
  let out := TaskController.deleteTask req w1 in
  (forall i, params_id req = JsInt i ->
     answersError out 404 "Task not found" /\ table (snd out) = table w1)
  /\ (params_id req = NotInt ->
      answersError (TaskController.deleteTask req w) 500 "Failed to delete task"
      /\ answersError out 500 "Failed to delete task"
      /\ table (snd out) = table w).
Proof.
  cbv zeta. split.
  - intros i Hid.
    assert (F : Prisma.findUniqueById i
                  (table (snd (TaskController.deleteTask req w))) = None).
    { rewrite deleteTask_table, Hid. apply find_filter_self. }
    rewrite (deleteTask_missing req _ i Hid F). repeat split.
  - intros Hid. rewrite (deleteTask_not_int req w Hid).
    rewrite (deleteTask_not_int req _ Hid). repeat split.
Qed.

Lemma deleteTask_twice_witness :
  answersSuccess (TaskController.deleteTask deleteDog (start twoTasks))
                 200 "Task deleted successfully" JNull
  /\ answersError
       (TaskController.deleteTask deleteDog
          (snd (TaskController.deleteTask deleteDog (start twoTasks))))
       404 "Task not found".
Proof.
  split; [repeat split|].
  exact (proj1 (proj1 (deleteTask_twice deleteDog (start twoTasks)) 2%Z eq_refl)).
Defined.

(* ------------------------------------------------------------------ *)
(** ** Further properties: what the handlers keep true of the table *)

Section ListFacts.

Context {A B : Type} (f : A -> B) (q : A -> bool).

Lemma in_map_filter (l : list A) (b : B) :
  In b (map f (filter q l)) -> In b (map f l).
Proof.
  intros H. apply in_map_iff in H. destruct H as (x & <- & Hx).
  apply filter_In in Hx. apply in_map. tauto.
Qed.

Lemma NoDup_map_filter (l : list A) :
  NoDup (map f l) -> NoDup (map f (filter q l)).
Proof.
  induction l as [|x l IH]; simpl; [trivial|].
  intros H. inversion H as [|? ? Hx Hl]; subst.
  destruct (q x); simpl; [|now apply IH].
  constructor; [|now apply IH].
  intros Hin. apply Hx. now apply in_map_filter.
Qed.

Lemma Forall_map_filter (P : B -> Prop) (l : list A) :
  Forall P (map f l) -> Forall P (map f (filter q l)).
Proof.
  rewrite !Forall_forall. intros H b Hb. apply H. now apply in_map_filter.
Qed.

End ListFacts.

Lemma NoDup_map_same {A B : Type} (f : A -> B) (l : list A) (x y : A) :
  NoDup (map f l) -> In x l -> In y l -> f x = f y -> x = y.
Proof.
  induction l as [|z l IH]; simpl; [tauto|].
  intros H Hx Hy E. inversion H as [|? ? Hz Hl]; subst.
  destruct Hx as [<-|Hx], Hy as [<-|Hy]; [reflexivity| | |now apply IH].
  - exfalso. apply Hz. rewrite E. now apply in_map.
  - exfalso. apply Hz. rewrite <- E. now apply in_map.
Qed.

Lemma in_replaceRow (row r : Prisma.Task) (l : list Prisma.Task) :
  In r (Prisma.replaceRow row l) -> r = row \/ In r l.
Proof.
  induction l as [|x l IH]; simpl; [tauto|].
  destruct (Z.eqb (Prisma.id x) (Prisma.id row)); simpl.
  - intros [<-|H]; tauto.
  - intros [<-|H]; [tauto|]. destruct (IH H); tauto.
Qed.

Lemma replaceRow_titles (row : Prisma.Task) (l : list Prisma.Task) :
  NoDup (map Prisma.id l) -> NoDup (map Prisma.title l) ->
  (forall r, In r l -> Prisma.id r <> Prisma.id row ->
             Prisma.title r <> Prisma.title row) ->
  NoDup (map Prisma.title (Prisma.replaceRow row l)).
Proof.
  induction l as [|x l IH]; simpl; [trivial|].
  intros Hid Ht Hother.
  inversion Hid as [|? ? Hxid Hlid]; subst.
  inversion Ht as [|? ? Hxt Hlt]; subst.
  destruct (Z.eqb (Prisma.id x) (Prisma.id row)) eqn:E; simpl.
  - apply Z.eqb_eq in E. constructor; [|exact Hlt].
    intros Hin. apply in_map_iff in Hin. destruct Hin as (r & Hr & Hrl).
    apply (Hother r (or_intror Hrl)); [|exact Hr].
    intros Heq. apply Hxid. rewrite E, <- Heq. now apply in_map.
  - apply Z.eqb_neq in E. constructor.
    + intros Hin. apply in_map_iff in Hin. destruct Hin as (r & Hr & Hrl).
      destruct (in_replaceRow _ _ _ Hrl) as [-> | Hrl'].
      * now apply (Hother x (or_introl eq_refl) E).
      * apply Hxt. rewrite <- Hr. now apply in_map.
    + apply IH; [exact Hlid | exact Hlt |].
      intros r Hr. apply Hother. now right.
Qed.

Lemma titleTakenByOther_false (i : Z) (t : string) (tbl : Prisma.Table)
    (r : Prisma.Task) :
  Prisma.titleTakenByOther i t tbl = false ->
  In r (Prisma.rows tbl) -> Prisma.id r <> i -> Prisma.title r <> t.
Proof.
  intros H Hin Hid Ht. unfold Prisma.titleTakenByOther in H.
  assert (X : existsb (fun r0 => negb (Z.eqb (Prisma.id r0) i)
                                 && String.eqb (Prisma.title r0) t)
                      (Prisma.rows tbl) = true).
  { apply existsb_exists. exists r. split; [exact Hin|].
    apply Z.eqb_neq in Hid. rewrite Hid, Ht, String.eqb_refl. reflexivity. }
  congruence.
Qed.

(** X11.  The three writing handlers keep the ids pairwise distinct and below
    the next auto-increment value; so the id [createTask] assigns is never
    the id of a stored task. *)
Theorem handlers_keep_ids_fresh (req : Request) (w : World)
    (Hids : idsFresh (table w)) :
  idsFresh (table (snd (TaskController.createTask req w)))
  /\ idsFresh (table (snd (TaskController.updateTask req w)))
  /\ idsFresh (table (snd (TaskController.deleteTask req w))).
Proof.
  destruct Hids as [Hnd Hlt]. split; [|split].
  - destruct (createTask_table req w) as [-> | (input & _ & _ & ->)];
      [now split|].
    unfold idsFresh. cbn [Prisma.rows Prisma.nextId]. rewrite map_app. simpl.
    split.
    + apply NoDup_app; [exact Hnd | constructor; [intros []|constructor] |].
      intros a Ha [<-|[]]. rewrite Forall_forall in Hlt.
      specialize (Hlt _ Ha). lia.
    + apply Forall_app. split.
      * eapply Forall_impl; [|exact Hlt]. simpl. intros; lia.
      * constructor; [lia|constructor].
  - destruct (updateTask_table req w)
      as [-> | (i & old & data & _ & _ & _ & _ & ->)]; [now split|].
    unfold idsFresh. cbn [Prisma.rows Prisma.nextId].
    rewrite map_id_replaceRow. now split.
  - rewrite deleteTask_table. destruct (params_id req) as [i|]; [|now split].
    unfold idsFresh. cbn [Prisma.rows Prisma.nextId].
    split; [now apply NoDup_map_filter | now apply Forall_map_filter].
Qed.

Lemma twoTasks_ids_fresh : idsFresh twoTasks.
Proof.
  split.
  - simpl. constructor; [intros [H|[]]; discriminate H|].
    constructor; [intros []|constructor].
  - simpl. repeat constructor.
Qed.

Lemma handlers_keep_ids_fresh_witness :
  idsFresh (table (start twoTasks))
  /\ idsFresh (table (snd (TaskController.createTask alreadyDone (start twoTasks)))).
Proof.
  split; [exact twoTasks_ids_fresh|].
  exact (proj1 (handlers_keep_ids_fresh alreadyDone (start twoTasks)
                  twoTasks_ids_fresh)).
Defined.

(** X12.  In a table with distinct ids, the three writing handlers keep the
    stored titles pairwise distinct: [createTask] by its look-up before the
    insert, [updateTask] because a title held by another row makes the table
    refuse the update. *)
Theorem handlers_keep_titles_distinct (req : Request) (w : World)
    (Hids : idsFresh (table w)) (Htitles : titlesDistinct (table w)) :
  titlesDistinct (table (snd (TaskController.createTask req w)))
  /\ titlesDistinct (table (snd (TaskController.updateTask req w)))
  /\ titlesDistinct (table (snd (TaskController.deleteTask req w))).
Proof.
  destruct Hids as [Hnd _]. unfold titlesDistinct in *. split; [|split].
  - destruct (createTask_table req w) as [-> | (input & _ & E & ->)];
      [exact Htitles|].
    cbn [Prisma.rows]. rewrite map_app. simpl.
    apply NoDup_app; [exact Htitles | constructor; [intros []|constructor] |].
    intros a Ha [<-|[]]. apply in_map_iff in Ha. destruct Ha as (r & Hr & Hin).
    exact (find_title_none_inv _ _ r E Hin Hr).
  - destruct (updateTask_table req w)
      as [-> | (i & old & data & Hi & F & _ & Hfree & ->)]; [exact Htitles|].
    cbn [Prisma.rows]. apply replaceRow_titles; [exact Hnd | exact Htitles |].
    pose proof (find_id_matches _ _ _ F) as Hid.
    intros r Hin Hr. rewrite merge_id, Hid in Hr. clear Hi.
    destruct (Zod.ptitle data) as [t|] eqn:T.
    + unfold Prisma.merge. simpl. rewrite T. simpl.
      exact (titleTakenByOther_false _ _ _ r (Hfree t eq_refl) Hin Hr).
    + unfold Prisma.merge. simpl. rewrite T. simpl.
      intros Heq. apply Hr. rewrite <- Hid.
      f_equal.
      apply (NoDup_map_same Prisma.title (Prisma.rows (table w)));
        [exact Htitles | exact Hin | | exact Heq].
      apply find_some in F. tauto.
  - rewrite deleteTask_table. destruct (params_id req) as [i|]; [|exact Htitles].
    cbn [Prisma.rows]. now apply NoDup_map_filter.
Qed.

Lemma twoTasks_titles_distinct : titlesDistinct twoTasks.
Proof.
  unfold titlesDistinct. simpl.
  constructor; [intros [H|[]]; discriminate H|].
  constructor; [intros []|constructor].
Qed.

Lemma handlers_keep_titles_distinct_witness :
  titlesDistinct (table (start twoTasks))
  /\ titlesDistinct
       (table (snd (TaskController.updateTask repaintDog (start twoTasks)))).
Proof.
  split; [exact twoTasks_titles_distinct|].
  exact (proj1 (proj2 (handlers_keep_titles_distinct repaintDog (start twoTasks)
                         twoTasks_ids_fresh twoTasks_titles_distinct))).
Defined.

(* ------------------------------------------------------------------ *)
(** ** Further properties: getTasks and the answers of all handlers *)

Lemma taskJson_injective (t1 t2 : Prisma.Task) :
  Prisma.taskJson t1 = Prisma.taskJson t2 -> t1 = t2.
Proof.
  destruct t1, t2. unfold Prisma.taskJson. simpl. intros H.
  injection H as -> -> -> ->. reflexivity.
Qed.

Lemma map_taskJson_injective (l1 l2 : list Prisma.Task) :
  map Prisma.taskJson l1 = map Prisma.taskJson l2 -> l1 = l2.
Proof.
  revert l2. induction l1 as [|x l1 IH]; intros [|y l2]; simpl;
    try discriminate; [reflexivity|].
  intros H.
  assert (Hx : Prisma.taskJson x = Prisma.taskJson y) by congruence.
  assert (Hl : map Prisma.taskJson l1 = map Prisma.taskJson l2) by congruence.
  now rewrite (taskJson_injective _ _ Hx), (IH _ Hl).
Qed.

(** X13.  [getTasks] answers 200 with one item per stored task, in the order
    of the table, and the items determine the rows: two tables listed alike
    hold the same rows.  It changes nothing and does not call [next]. *)
Theorem getTasks_lists_every_task (req : Request) (w : World) :
  let out := TaskController.getTasks req w in
  answersSuccess out 200 "Tasks retrieved successfully"
    (JArr (map Prisma.taskJson (Prisma.rows (table w))))
  /\ List.length (map Prisma.taskJson (Prisma.rows (table w)))
     = List.length (Prisma.rows (table w))
  /\ table (snd out) = table w
  /\ nextCalls (snd out) = nextCalls w
  /\ (forall req' w',
        Express.sent (res (snd (TaskController.getTasks req' w')))
        = Express.sent (res (snd out)) ->
        Prisma.rows (table w') = Prisma.rows (table w)).
Proof.
  cbv zeta. split; [repeat split|]. split; [apply length_map|].
  split; [reflexivity|]. split; [reflexivity|].
  intros req' w' H. cbn in H. injection H as H.
  now apply map_taskJson_injective.
Qed.

Lemma getTasks_lists_every_task_witness :
  Express.sent (res (snd (TaskController.getTasks deleteDog (start twoTasks))))
  = Express.sent (res (snd (TaskController.getTasks emptyTitle (start twoTasks))))
  /\ Prisma.rows (table (start twoTasks)) = Prisma.rows (table (start twoTasks)).
Proof.
  split; [reflexivity|].
  exact (proj2 (proj2 (proj2 (proj2
           (getTasks_lists_every_task emptyTitle (start twoTasks)))))
           deleteDog (start twoTasks) eq_refl).
Defined.

Lemma sendError_envelope (r : Express.Response) (msg : string) (c : Z) :
  In c [200; 201; 400; 404; 500]%Z ->
  exists b,
    Express.sent (ResponseHelper.sendError r msg (Some c)) = Some b /\ isEnvelope b.
Proof.
  intros Hc. eexists. split; [reflexivity|].
  split; [right; reflexivity|]. exists c, msg. repeat split. exact Hc.
Qed.

Lemma sendSuccess_envelope (r : Express.Response) (data : json) (msg : string)
    (c : option Z) :
  In (orDefault 200%Z c) [200; 201; 400; 404; 500]%Z ->
  exists b,
    Express.sent (ResponseHelper.sendSuccess r data (Some msg) c) = Some b
    /\ isEnvelope b.
Proof.
  intros Hc. eexists. split; [reflexivity|].
  split; [left; reflexivity|]. exists (orDefault 200%Z c), msg.
  repeat split. exact Hc.
Qed.

(** X14.  None of the four handlers throws or leaves the request without an
    answer: each returns after sending one envelope whose [status] is
    "success" or "error" and whose [statusCode] is 200, 201, 400, 404 or
    500. *)
Theorem handlers_always_answer (req : Request) (w : World) :
  answered (TaskController.getTasks req w)
  /\ answered (TaskController.createTask req w)
  /\ answered (TaskController.updateTask req w)
  /\ answered (TaskController.deleteTask req w).
Proof.
  unfold answered. split; [|split; [|split]].
  - split; [reflexivity|]. apply sendSuccess_envelope. simpl. tauto.
  - destruct (Zod.taskSchema_parse (body req)) as [e|input] eqn:P.
    + destruct (taskSchema_parse_error _ _ P) as (first & rest & -> & _).
      rewrite (createTask_invalid req w first rest P).
      split; [reflexivity|]. apply sendError_envelope. simpl. tauto.
    + destruct (Prisma.findUniqueByTitle
                  (TaskController.normalize (Zod.title input)) (table w))
        as [existing|] eqn:E.
      * rewrite (createTask_existing req w input existing P E).
        split; [reflexivity|]. apply sendError_envelope. simpl. tauto.
      * rewrite (createTask_new req w input P E).
        split; [reflexivity|]. apply sendSuccess_envelope. simpl. tauto.
  - destruct (params_id req) as [i|] eqn:Hid.
    2: { rewrite (updateTask_not_int req w Hid).
         split; [reflexivity|]. apply sendError_envelope. simpl. tauto. }
    destruct (Prisma.findUniqueById i (table w)) as [old|] eqn:F.
    2: { rewrite (updateTask_missing req w i Hid F).
         split; [reflexivity|]. apply sendError_envelope. simpl. tauto. }
    destruct (Zod.taskSchema_partial_parse (body req)) as [e|data] eqn:P.
    { destruct (taskSchema_partial_parse_error _ _ P) as (first & rest & ->).
      rewrite (updateTask_invalid req w i Hid old first rest F P).
      split; [reflexivity|]. apply sendError_envelope. simpl. tauto. }
    destruct (Prisma.update i data (table w)) as [e|[row tbl]] eqn:U.
    + assert (He : e = Prisma.uniqueViolation).
      { unfold Prisma.update in U. rewrite F in U.
        destruct (Zod.ptitle data) as [t|]; [|discriminate].
        destruct (Prisma.titleTakenByOther i t (table w)); congruence. }
      subst e. rewrite (updateTask_refused req w i Hid old data _ F P U).
      split; [reflexivity|]. apply sendError_envelope. simpl. tauto.
    + rewrite (updateTask_done req w i Hid old data row tbl F P U).
      split; [reflexivity|]. apply sendSuccess_envelope. simpl. tauto.
  - destruct (params_id req) as [i|] eqn:Hid.
    2: { rewrite (deleteTask_not_int req w Hid).
         split; [reflexivity|]. apply sendError_envelope. simpl. tauto. }
    destruct (Prisma.findUniqueById i (table w)) as [old|] eqn:F.
    + rewrite (deleteTask_done req w i Hid old F).
      split; [reflexivity|]. apply sendSuccess_envelope. simpl. tauto.
    + rewrite (deleteTask_missing req w i Hid F).
      split; [reflexivity|]. apply sendError_envelope. simpl. tauto.
Qed.

(** X15.  What the catch blocks answer never carries the text of the error:
    [createTask] answers any error with a [code] other than P2002, and any
    error without a [code], with 500 "Failed to create task"; [deleteTask]
    answers any error at all with 500 "Failed to delete task".  Both call
    [next] once and leave the table alone. *)
Theorem catch_blocks_fixed_messages :
  (forall (e : JsError) (w : World),
     code e <> Some "P2002" ->
     let out := TaskController.createTask_catch (Thrown e) w in
     answersError out 500 "Failed to create task"
     /\ table (snd out) = table w /\ nextCalls (snd out) = S (nextCalls w))
  /\ (forall (error : exn) (w : World),
        let out := TaskController.deleteTask_catch error w in
        answersError out 500 "Failed to delete task"
        /\ table (snd out) = table w /\ nextCalls (snd out) = S (nextCalls w)).
Proof.
  split.
  - intros e w Hcode. cbv zeta. unfold TaskController.createTask_catch.
    destruct (code e) as [c|]; [|repeat split].
    destruct (String.eqb c "P2002") eqn:E; [|repeat split].
    apply String.eqb_eq in E. congruence.
  - intros error w. cbv zeta. repeat split.
Qed.

Lemma catch_blocks_fixed_messages_witness :
  answersError
    (TaskController.createTask_catch
       (Thrown (prismaError "P1001" None "Can't reach database server at localhost"))
       (start twoTasks))
    500 "Failed to create task".
Proof.
  apply (proj1 catch_blocks_fixed_messages
           (prismaError "P1001" None "Can't reach database server at localhost")
           (start twoTasks)).
  discriminate.
Defined.

(* ------------------------------------------------------------------ *)
(** ** Further properties: the error-handling middleware *)

(** X16.  A [CustomError] is answered with its own message and status code,
    whatever the environment and even when the error also carries a [code]
    such as P2002: the test for [CustomError] comes first. *)
Theorem errorHandler_custom_first (node_env : option string) (err : JsError)
    (res : Express.Response) (statusCode : Z)
    (Hcustom : custom err = Some statusCode) :
  Express.sent (App.errorHandler node_env err res)
  = Some (errorBody statusCode (message err))
  /\ forall node_env' c target,
       App.errorHandler node_env'
         (mkJsError (Some statusCode) c target (message err)) res
       = App.errorHandler node_env err res.
Proof.
  unfold App.errorHandler. rewrite Hcustom. split; reflexivity.
Qed.

Lemma errorHandler_custom_first_witness :
  Express.sent (App.errorHandler (Some "production")
                  (mkJsError (Some 409%Z) (Some "P2002") None "Title taken")
                  Express.fresh)
  = Some (errorBody 409 "Title taken").
Proof.
  exact (proj1 (errorHandler_custom_first (Some "production")
                  (mkJsError (Some 409%Z) (Some "P2002") None "Title taken")
                  Express.fresh 409%Z eq_refl)).
Defined.

(** X17.  For an error with a [code] other than P2002 the answer is fixed by
    the code alone: 404 "Resource not found" for P2025, 500 "Database
    operation failed" otherwise.  Neither the text of the error, nor
    [meta.target], nor the environment shows in it. *)
Theorem errorHandler_storage_detail_hidden (node_env : option string)
    (err : JsError) (res : Express.Response) (c : string)
    (Hcustom : custom err = None) (Hcode : code err = Some c)
    (Hother : c <> "P2002") :
  let r := App.errorHandler node_env err res in
  (c = "P2025" -> Express.sent r = Some (errorBody 404 "Resource not found"))
  /\ (c <> "P2025" ->
      Express.sent r = Some (errorBody 500 "Database operation failed"))
  /\ (forall node_env' err',
        custom err' = None -> code err' = Some c ->
        App.errorHandler node_env' err' res = r).
Proof.
  cbv zeta. unfold App.errorHandler. rewrite Hcustom, Hcode.
  apply String.eqb_neq in Hother. rewrite Hother.
  split; [|split].
  - intros ->. reflexivity.
  - intros H. apply String.eqb_neq in H. now rewrite H.
  - intros node_env' err' Hc' Hcode'. now rewrite Hc', Hcode', Hother.
Qed.

Lemma errorHandler_storage_detail_hidden_witness :
  Express.sent (App.errorHandler (Some "development")
                  (prismaError "P1001" None "Can't reach database server at db:3306")
                  Express.fresh)
  = Some (errorBody 500 "Database operation failed").
Proof.
  apply (proj1 (proj2 (errorHandler_storage_detail_hidden (Some "development")
                         (prismaError "P1001" None
                            "Can't reach database server at db:3306")
                         Express.fresh "P1001" eq_refl eq_refl
                         ltac:(discriminate)))).
  discriminate.
Defined.

(* ------------------------------------------------------------------ *)
(** ** Further properties: the seed script *)

Lemma findUniqueByTitle_snoc (t : string) (rows : list Prisma.Task)
    (row : Prisma.Task) (n m : Z) :
  Prisma.findUniqueByTitle t (Prisma.mkTable (rows ++ [row]) n)
  = match Prisma.findUniqueByTitle t (Prisma.mkTable rows m) with
    | Some r => Some r
    | None => if String.eqb (Prisma.title row) t then Some row else None
    end.
Proof.
  unfold Prisma.findUniqueByTitle. cbn [Prisma.rows].
  induction rows as [|x l IH]; simpl; [reflexivity|].
  destruct (String.eqb (Prisma.title x) t); [reflexivity | exact IH].
Qed.

Lemma find_title_in (t : string) (tbl : Prisma.Table) (r : Prisma.Task) :
  Prisma.findUniqueByTitle t tbl = Some r ->
  In r (Prisma.rows tbl) /\ Prisma.title r = t.
Proof.
  intros E. apply find_some in E. destruct E as [Hin E].
  now apply String.eqb_eq in E.
Qed.

Lemma seed_cases (tbl : Prisma.Table) :
  match Prisma.findUniqueByTitle "Learn Prisma" tbl,
        Prisma.findUniqueByTitle "Build Todo App" tbl,
        Prisma.findUniqueByTitle "Write Tests" tbl with
  | None, None, None =>
      Seed.seed tbl
      = Prisma.mkTable (Prisma.rows tbl ++ seedRows (Prisma.nextId tbl))
                       (Prisma.nextId tbl + 1 + 1 + 1)
  | _, _, _ => Seed.seed tbl = tbl
  end.
Proof.
  destruct tbl as [rows n].
  unfold Seed.seed, Seed.createMany, Seed.seedData, Seed.insertAll.
  cbn [Zod.title Zod.color Zod.completed orDefault Prisma.rows Prisma.nextId].
  rewrite (findUniqueByTitle_snoc "Write Tests" _ _ (n + 1 + 1) n).
  rewrite (findUniqueByTitle_snoc "Write Tests" rows _ n n).
  rewrite (findUniqueByTitle_snoc "Build Todo App" rows _ (n + 1) n).
  cbn [Prisma.title].
  change (String.eqb "Learn Prisma" "Build Todo App") with false.
  change (String.eqb "Learn Prisma" "Write Tests") with false.
  change (String.eqb "Build Todo App" "Write Tests") with false.
  cbv iota.
  destruct (Prisma.findUniqueByTitle "Learn Prisma" (Prisma.mkTable rows n));
    destruct (Prisma.findUniqueByTitle "Build Todo App" (Prisma.mkTable rows n));
    destruct (Prisma.findUniqueByTitle "Write Tests" (Prisma.mkTable rows n));
    try reflexivity.
  unfold seedRows, Prisma.defaultCompleted. now rewrite <- !app_assoc.
Qed.

(** X18.  The seed script is all or nothing.  When one of its three titles is
    already stored, the rows are as before; when none is, exactly its three
    rows follow the existing ones, with the next three ids, and their titles
    are not in normalized form.  Hence running it a second time adds
    nothing. *)
Theorem seed_all_or_nothing (tbl : Prisma.Table) :
  ((exists r, In r (Prisma.rows tbl) /\ In (Prisma.title r) seedTitles) ->
   Prisma.rows (Seed.seed tbl) = Prisma.rows tbl)
  /\ ((forall r, In r (Prisma.rows tbl) -> ~ In (Prisma.title r) seedTitles) ->
      Prisma.rows (Seed.seed tbl)
      = (Prisma.rows tbl ++ seedRows (Prisma.nextId tbl))%list
      /\ ~ titlesNormalized (Seed.seed tbl))
  /\ Prisma.rows (Seed.seed (Seed.seed tbl)) = Prisma.rows (Seed.seed tbl).
Proof.
  assert (Hhit : forall tb : Prisma.Table,
            (exists r, In r (Prisma.rows tb) /\ In (Prisma.title r) seedTitles) ->
            Seed.seed tb = tb).
  { intros tb (r & Hin & Ht). pose proof (seed_cases tb) as H.
    destruct (Prisma.findUniqueByTitle "Learn Prisma" tb) eqn:E1; [exact H|].
    destruct (Prisma.findUniqueByTitle "Build Todo App" tb) eqn:E2; [exact H|].
    destruct (Prisma.findUniqueByTitle "Write Tests" tb) eqn:E3; [exact H|].
    exfalso. simpl in Ht. destruct Ht as [Ht|[Ht|[Ht|[]]]]; symmetry in Ht.
    - exact (find_title_none_inv _ _ r E1 Hin Ht).
    - exact (find_title_none_inv _ _ r E2 Hin Ht).
    - exact (find_title_none_inv _ _ r E3 Hin Ht). }
  assert (Hmiss : (forall r, In r (Prisma.rows tbl) ->
                             ~ In (Prisma.title r) seedTitles) ->
            Seed.seed tbl
            = Prisma.mkTable (Prisma.rows tbl ++ seedRows (Prisma.nextId tbl))
                             (Prisma.nextId tbl + 1 + 1 + 1)).
  { intros Hnone. pose proof (seed_cases tbl) as H.
    destruct (Prisma.findUniqueByTitle "Learn Prisma" tbl) as [r|] eqn:E1.
    { exfalso. destruct (find_title_in _ _ _ E1) as [Hin Ht].
      apply (Hnone r Hin). rewrite Ht. simpl. tauto. }
    destruct (Prisma.findUniqueByTitle "Build Todo App" tbl) as [r|] eqn:E2.
    { exfalso. destruct (find_title_in _ _ _ E2) as [Hin Ht].
      apply (Hnone r Hin). rewrite Ht. simpl. tauto. }
    destruct (Prisma.findUniqueByTitle "Write Tests" tbl) as [r|] eqn:E3.
    { exfalso. destruct (find_title_in _ _ _ E3) as [Hin Ht].
      apply (Hnone r Hin). rewrite Ht. simpl. tauto. }
    exact H. }
  split; [|split].
  - intros H. now rewrite (Hhit tbl H).
  - intros Hnone. rewrite (Hmiss Hnone). split; [reflexivity|].
    unfold titlesNormalized. cbn [Prisma.rows]. intros H.
    apply Forall_app in H. destruct H as [_ H].
    inversion H as [|? ? H1 _]; subst. discriminate H1.
  - pose proof (seed_cases tbl) as H.
    destruct (Prisma.findUniqueByTitle "Learn Prisma" tbl) eqn:E1;
      [now rewrite !H|].
    destruct (Prisma.findUniqueByTitle "Build Todo App" tbl) eqn:E2;
      [now rewrite !H|].
    destruct (Prisma.findUniqueByTitle "Write Tests" tbl) eqn:E3;
      [now rewrite !H|].
    rewrite H. rewrite Hhit; [reflexivity|].
    exists (Prisma.mkTask (Prisma.nextId tbl) "Learn Prisma" "blue" false).
    cbn [Prisma.rows Prisma.title]. split; [|simpl; tauto].
    apply in_or_app. right. left. reflexivity.
Qed.

Lemma seed_all_or_nothing_witness :
  Prisma.rows (Seed.seed emptyTable)
  = [Prisma.mkTask 1 "Learn Prisma" "blue" false;
     Prisma.mkTask 2 "Build Todo App" "green" true;
     Prisma.mkTask 3 "Write Tests" "red" false].
Proof.
  apply (proj1 (proj2 (seed_all_or_nothing emptyTable))).
  intros r [].
Defined.
